(** * Pattern Memory Engine of the autofill AI service

    A shallow embedding of [ai-service/pattern_service.py] (matcher and
    store gateway), [resume_service.py] ([save_user_profile]) and the
    [/predict] handler of [ai-service/app.py], together with the
    request/response client of [ai-service/supabase_client.py].

    Conventions.
    - Python [str] is [string]; the model covers ASCII text.
    - Python [float] is the kernel's binary64 [float].
    - Every store round trip ([execute()]) is explicit state passing over
      a [World] that holds the tables, a clock and the log of requests. *)

From Stdlib Require Import PrimFloat Uint63 ZArith NArith Ascii String List Bool Lia.
From stdpp Require Import gmap strings list.

Set Warnings "-inexact-float,-register-all".
Local Open Scope string_scope.
Local Open Scope list_scope.

(** ** Python string primitives *)

(** [str.isspace] on code points below 128. *)
Definition is_space (c : ascii) : bool :=
  let n := nat_of_ascii c in
  (((9 <=? n) && (n <=? 13)) || ((28 <=? n) && (n <=? 32)))%nat.

Definition lower_char (c : ascii) : ascii :=
  let n := nat_of_ascii c in
  if ((65 <=? n) && (n <=? 90))%nat then ascii_of_nat (n + 32) else c.

(** [s.lower()] on ASCII text: the letters [A] to [Z] are mapped, every
    other character is kept. *)
Fixpoint lower (s : string) : string :=
  match s with
  | EmptyString => EmptyString
  | String c s' => String (lower_char c) (lower s')
  end.

Fixpoint lstrip (s : string) : string :=
  match s with
  | EmptyString => EmptyString
  | String c s' => if is_space c then lstrip s' else s
  end.

Fixpoint rstrip (s : string) : string :=
  match s with
  | EmptyString => EmptyString
  | String c s' =>
      match rstrip s' with
      | EmptyString => if is_space c then EmptyString else String c EmptyString
      | t => String c t
      end
  end.

(** [s.strip()] *)
Definition strip (s : string) : string := rstrip (lstrip s).

(** [s.split()]: the maximal runs of non-whitespace characters.
    [cur] is the word being read. *)
Fixpoint split_from (cur : string) (s : string) : list string :=
  match s with
  | EmptyString => match cur with EmptyString => [] | _ => [cur] end
  | String c s' =>
      if is_space c then
        match cur with
        | EmptyString => split_from EmptyString s'
        | _ => cur :: split_from EmptyString s'
        end
      else split_from (cur +:+ String c EmptyString) s'
  end.

Definition split (s : string) : list string := split_from EmptyString s.

(** [needle in hay] *)
Fixpoint contains (needle hay : string) : bool :=
  String.prefix needle hay ||
  match hay with
  | EmptyString => false
  | String _ hay' => contains needle hay'
  end.

(** Truthiness of a Python string. *)
Definition truthy (s : string) : bool := negb (String.eqb s "").

(** Truthiness of an optional string ([None] and [""] are falsy). *)
Definition truthy_opt (o : option string) : bool :=
  match o with
  | Some s => truthy s
  | None => false
  end.

(** [question.lower().strip()], the normal form used at read and write time. *)
Definition normalize (s : string) : string := strip (lower s).

(** The text is ASCII: every character has a code point below 128, the
    range on which [is_space] and [lower_char] are [str.isspace] and
    [str.lower]. *)
Definition is_ascii_text (s : string) : bool :=
  forallb (fun c => Nat.ltb (nat_of_ascii c) 128) (list_ascii_of_string s).

(** ** Numbers *)

(** [int] to [float] conversion of a length (exact below 2^53, as in
    Python; lengths stay far below). *)
Definition float_of_nat (n : nat) : float :=
  PrimFloat.of_uint63 (Uint63.of_Z (Z.of_nat n)).

(** ** hashlib.md5

    The digest of RFC 1321 over the bytes of the string, on 32-bit words
    held in [N] with the wrap-around written out. *)

Module MD5.

Local Open Scope N_scope.

Definition mask32 : N := 0xffffffff.
Definition add32 (x y : N) : N := N.land (x + y) mask32.
Definition not32 (x : N) : N := N.lxor x mask32.
Definition rotl32 (x : N) (c : N) : N :=
  N.land (N.lor (N.shiftl x c) (N.shiftr x (32 - c))) mask32.

Definition shifts : list N :=
  [7; 12; 17; 22; 7; 12; 17; 22; 7; 12; 17; 22; 7; 12; 17; 22;
   5; 9; 14; 20; 5; 9; 14; 20; 5; 9; 14; 20; 5; 9; 14; 20;
   4; 11; 16; 23; 4; 11; 16; 23; 4; 11; 16; 23; 4; 11; 16; 23;
   6; 10; 15; 21; 6; 10; 15; 21; 6; 10; 15; 21; 6; 10; 15; 21].

Definition sines : list N :=
  [0xd76aa478; 0xe8c7b756; 0x242070db; 0xc1bdceee;
   0xf57c0faf; 0x4787c62a; 0xa8304613; 0xfd469501;
   0x698098d8; 0x8b44f7af; 0xffff5bb1; 0x895cd7be;
   0x6b901122; 0xfd987193; 0xa679438e; 0x49b40821;
   0xf61e2562; 0xc040b340; 0x265e5a51; 0xe9b6c7aa;
   0xd62f105d; 0x02441453; 0xd8a1e681; 0xe7d3fbc8;
   0x21e1cde6; 0xc33707d6; 0xf4d50d87; 0x455a14ed;
   0xa9e3e905; 0xfcefa3f8; 0x676f02d9; 0x8d2a4c8a;
   0xfffa3942; 0x8771f681; 0x6d9d6122; 0xfde5380c;
   0xa4beea44; 0x4bdecfa9; 0xf6bb4b60; 0xbebfbc70;
   0x289b7ec6; 0xeaa127fa; 0xd4ef3085; 0x04881d05;
   0xd9d4d039; 0xe6db99e5; 0x1fa27cf8; 0xc4ac5665;
   0xf4292244; 0x432aff97; 0xab9423a7; 0xfc93a039;
   0x655b59c3; 0x8f0ccc92; 0xffeff47d; 0x85845dd1;
   0x6fa87e4f; 0xfe2ce6e0; 0xa3014314; 0x4e0811a1;
   0xf7537e82; 0xbd3af235; 0x2ad7d2bb; 0xeb86d391].

(** Little-endian bytes of a number, [n] of them. *)
Fixpoint le_bytes (n : nat) (x : N) : list N :=
  match n with
  | O => []
  | S n' => N.land x 0xff :: le_bytes n' (N.shiftr x 8)
  end.

Fixpoint of_le_bytes (bs : list N) : N :=
  match bs with
  | [] => 0
  | b :: rest => b + 256 * of_le_bytes rest
  end.

Definition bytes_of_string (s : string) : list N :=
  map N_of_ascii (list_ascii_of_string s).

(** The message followed by 0x80, zeros up to 56 modulo 64, and its
    bit length on eight bytes. *)
Definition pad (msg : list N) : list N :=
  let len := N.of_nat (length msg) in
  let zeros := N.to_nat ((55 + 64 - len mod 64) mod 64) in
  msg ++ [0x80] ++ repeat 0 zeros ++ le_bytes 8 (8 * len).

(** Cuts a list into pieces of [n] elements; [fuel] bounds the pieces. *)
Fixpoint chunks {A} (fuel n : nat) (l : list A) : list (list A) :=
  match fuel, l with
  | O, _ | _, [] => []
  | S fuel', _ => firstn n l :: chunks fuel' n (skipn n l)
  end.

Definition word_list (block : list N) : list N :=
  map of_le_bytes (chunks 16 4 block).

Definition state : Type := N * N * N * N.

Definition round (m : list N) (st : state) (i : N) : state :=
  let '(a, b, c, d) := st in
  let '(f, g) :=
    if i <? 16 then (N.lor (N.land b c) (N.land (not32 b) d), i)
    else if i <? 32 then (N.lor (N.land d b) (N.land (not32 d) c), (5 * i + 1) mod 16)
    else if i <? 48 then (N.lxor (N.lxor b c) d, (3 * i + 5) mod 16)
    else (N.lxor c (N.lor b (not32 d)), (7 * i) mod 16) in
  let k := nth (N.to_nat i) sines 0 in
  let x := nth (N.to_nat g) m 0 in
  let f := add32 (add32 (add32 f a) k) x in
  (d, add32 b (rotl32 f (nth (N.to_nat i) shifts 0)), b, c).

Definition rounds : list N := map N.of_nat (seq 0 64).

Definition compress (st : state) (block : list N) : state :=
  let '(a0, b0, c0, d0) := st in
  let '(a, b, c, d) := fold_left (round (word_list block)) rounds st in
  (add32 a0 a, add32 b0 b, add32 c0 c, add32 d0 d).

Definition initial : state := (0x67452301, 0xefcdab89, 0x98badcfe, 0x10325476).

Definition digest (msg : list N) : list N :=
  let padded := pad msg in
  let '(a, b, c, d) :=
    fold_left compress (chunks (length padded) 64 padded) initial in
  le_bytes 4 a ++ le_bytes 4 b ++ le_bytes 4 c ++ le_bytes 4 d.

Definition hex_digit (n : N) : ascii :=
  nth (N.to_nat n) (list_ascii_of_string "0123456789abcdef") "0"%char.

Fixpoint hex (bs : list N) : string :=
  match bs with
  | [] => EmptyString
  | b :: rest => String (hex_digit (b / 16)) (String (hex_digit (b mod 16)) (hex rest))
  end.

(** [hashlib.md5(s.encode()).hexdigest()] *)
Definition hexdigest (s : string) : string := hex (digest (bytes_of_string s)).

End MD5.

(** ** Data model *)

(** One entry of [answerMappings]: a JSON object whose keys may be absent. *)
Record AnswerMapping := mkAnswerMapping {
  canonicalValue : option string;
  variants : option (list string);
  contextOptions : option (list string)
}.

(** Modelled from the spec: [models.Pattern] ([models.py] is not among
    the sources), the record handed to [save_pattern], with the fields
    that [save_pattern] and the handler read and write. *)
Module Pattern.
Record t := mk {
  id : option string;
  questionPattern : string;
  intent : string;
  canonicalKey : option string;
  fieldType : option string;
  confidence : float;
  source : option string;
  answerMappings : list AnswerMapping;
  createdAt : option string
}.
End Pattern.

(** A row of [learned_patterns] or [global_patterns], by column. *)
Module DbRow.
Record t := mk {
  id : string;
  user_email : string;
  question_pattern : string;
  intent : string;
  canonical_key : option string;
  field_type : option string;
  confidence : float;
  answer_mappings : list AnswerMapping;
  last_used : string;
  created_at : string
}.

(** [db_data['id'] = pattern_id] *)
Definition set_id (i : string) (r : t) : t :=
  mk i (user_email r) (question_pattern r) (intent r) (canonical_key r)
     (field_type r) (confidence r) (answer_mappings r) (last_used r)
     (created_at r).
End DbRow.

(** The dict [search_pattern] returns (the extension's format). *)
Module MemoryMatch.
Record t := mk {
  id : string;
  questionPattern : string;
  intent : string;
  canonicalKey : option string;
  answerMappings : list AnswerMapping
}.
End MemoryMatch.

(** Modelled from the spec: [models.AIRequest], as far as the handler
    reads it. *)
Module AIRequest.
Record t := mk {
  question : string;
  fieldType : option string;
  options : option (list string);
  userEmail : option string
}.
End AIRequest.

(** Modelled from the spec: [models.AIResponse]. *)
Module AIResponse.
Record t := mk {
  answer : string;
  confidence : float;
  reasoning : string;
  intent : option string
}.
End AIResponse.

(** JSON values as far as profile data needs them. *)
Inductive json :=
| JString (s : string)
| JObject (fields : list (string * json)).

(** [key in d] followed by [d[key]], for a dict [d]. *)
Definition json_get (key : string) (d : json) : option json :=
  match d with
  | JObject fields =>
      match find (fun kv => String.eqb (fst kv) key) fields with
      | Some kv => Some (snd kv)
      | None => None
      end
  | JString _ => None
  end.

(** A row of [user_profiles]. *)
Record ProfileRow := mkProfileRow {
  email : string;
  profile_data : json;
  updated_at : string
}.

(** Modelled from the spec: the configuration object of the absent
    [config.py], as far as the matcher and the handler read it; its
    values are left open. *)
Record Config := mkConfig {
  FUZZY_MATCH_THRESHOLD : float;
  PATTERN_MEMORY_CONFIDENCE : float
}.

(** What a call produces: a value, or a raised exception. *)
Inductive outcome (A : Type) :=
| Returned (a : A)
| Raised (e : string).
Arguments Returned {A} a.
Arguments Raised {A} e.

(** The dict [get_stats] returns. *)
Record Stats := mkStats {
  totalGlobalPatterns : nat;
  intentBreakdown : gmap string nat
}.

(** The body of the answer of [/api/patterns/upload]:
    [{"success": True, "message": ...}] or [{"success": False, "error": ...}]. *)
Inductive UploadReply :=
| Uploaded (message : string)
| Rejected (error : string).

(** Truthiness of a JSON value. *)
Definition json_truthy (d : json) : bool :=
  match d with
  | JString s => truthy s
  | JObject [] => false
  | JObject (_ :: _) => true
  end.

(** The value under the key [profile_data] of a dict that has one, the
    value itself otherwise: the unwrapping that [save_user_profile] and
    [get_user_profile] both apply. *)
Definition unwrap_profile_data (d : json) : json :=
  match json_get "profile_data" d with
  | Some inner => inner
  | None => d
  end.

(** ** The relational store behind [supabase_client]

    The store itself is an external service.  Its tables are modelled as
    row lists in insertion order, [learned_patterns] with primary key
    [id] and a foreign key from [user_email] to [user_profiles.email].
    [faults] scripts the transport: the n-th entry, when [Some err],
    makes the n-th upcoming [execute()] answer with that error and leave
    the tables alone (a timeout, a 5xx, ...). *)

(** The requests the service builds with [SupabaseTable]:
    - [table('learned_patterns').eq('user_email', user)]
    - [table('learned_patterns').select('id').eq('user_email', user)
       .eq('question_pattern', question)] (the rows are kept whole; the
      caller reads their [id] only)
    - [table('global_patterns').select("*")]
    - [table('learned_patterns').insert(r)]
    - [table('learned_patterns').upsert(r, on_conflict)], sent with
      [Prefer: resolution=merge-duplicates]
    - [table('user_profiles').upsert(r, on_conflict)]. *)
Inductive Request :=
| GetLearnedByUser (user : string)
| GetLearnedIds (user : string) (question : string)
| GetGlobal
| InsertLearned (r : DbRow.t)
| UpsertLearned (r : DbRow.t) (on_conflict : option string)
| UpsertProfile (r : ProfileRow) (on_conflict : option string).

(** [SupabaseResponse]; [data = None] and [data = []] are both read as
    no rows by every caller, so [data] is a plain list.  [error] is the
    error body as [str] renders it, the empty string standing for a body
    that Python reads as false. *)
Record Response := mkResponse {
  data : list DbRow.t;
  error : option string
}.

Record World := mkWorld {
  user_profiles : list ProfileRow;
  learned_patterns : list DbRow.t;
  global_patterns : list DbRow.t;
  faults : list (option string);
  clock : nat;
  trace : list (Request * Response)
}.

Definition fk_error : string :=
  "insert or update on table learned_patterns violates foreign key constraint learned_patterns_user_email_fkey".

Definition pk_error : string :=
  "duplicate key value violates unique constraint learned_patterns_pkey".

Definition has_id (i : string) (r : DbRow.t) : bool := String.eqb (DbRow.id r) i.

Definition owned_by (user : string) (r : DbRow.t) : bool :=
  String.eqb (DbRow.user_email r) user.

Definition has_question (q : string) (r : DbRow.t) : bool :=
  String.eqb (DbRow.question_pattern r) q.

(** The filter of the lookup in [save_pattern]: owner and question. *)
Definition keyed (user q : string) (r : DbRow.t) : bool :=
  owned_by user r && has_question q r.

(** The rows a lookup for [(user, q)] finds in the private table. *)
Definition stored (user q : string) (w : World) : list DbRow.t :=
  List.filter (keyed user q) (learned_patterns w).

Definition has_profile (user : string) (profiles : list ProfileRow) : bool :=
  existsb (fun pr => String.eqb (email pr) user) profiles.

(** Update in place of the row that carries the id of [r]. *)
Fixpoint replace_row (r : DbRow.t) (rows : list DbRow.t) : list DbRow.t :=
  match rows with
  | [] => []
  | x :: rest => if has_id (DbRow.id r) x then r :: rest else x :: replace_row r rest
  end.

Fixpoint replace_profile (r : ProfileRow) (rows : list ProfileRow) : list ProfileRow :=
  match rows with
  | [] => []
  | x :: rest =>
      if String.eqb (email x) (email r) then r :: rest else x :: replace_profile r rest
  end.

(** Merge-on-conflict write, keyed by [id]. *)
Definition merge_row (r : DbRow.t) (rows : list DbRow.t) : list DbRow.t :=
  if existsb (has_id (DbRow.id r)) rows then replace_row r rows else rows ++ [r].

Definition merge_profile (r : ProfileRow) (rows : list ProfileRow) : list ProfileRow :=
  if has_profile (email r) rows then replace_profile r rows else rows ++ [r].

Definition set_tables (profiles : list ProfileRow) (learned : list DbRow.t) (w : World) : World :=
  mkWorld profiles learned (global_patterns w) (faults w) (clock w) (trace w).

(** What the store answers to a request that reaches it. *)
Definition serve (rq : Request) (w : World) : Response * World :=
  match rq with
  | GetLearnedByUser user =>
      (mkResponse (List.filter (owned_by user) (learned_patterns w)) None, w)
  | GetLearnedIds user q =>
      (mkResponse
         (List.filter (keyed user q) (learned_patterns w))
         None, w)
  | GetGlobal => (mkResponse (global_patterns w) None, w)
  | InsertLearned r =>
      if existsb (has_id (DbRow.id r)) (learned_patterns w) then
        (mkResponse [] (Some pk_error), w)
      else if has_profile (DbRow.user_email r) (user_profiles w) then
        (mkResponse [r] None, set_tables (user_profiles w) (learned_patterns w ++ [r]) w)
      else (mkResponse [] (Some fk_error), w)
  | UpsertLearned r _ =>
      if has_profile (DbRow.user_email r) (user_profiles w) then
        (mkResponse [r] None,
         set_tables (user_profiles w) (merge_row r (learned_patterns w)) w)
      else (mkResponse [] (Some fk_error), w)
  | UpsertProfile r _ =>
      (mkResponse [] None,
       set_tables (merge_profile r (user_profiles w)) (learned_patterns w) w)
  end.

Definition log (rq : Request) (rs : Response) (w : World) : World :=
  mkWorld (user_profiles w) (learned_patterns w) (global_patterns w)
          (faults w) (clock w) (trace w ++ [(rq, rs)]).

Definition pop_fault (w : World) : World :=
  mkWorld (user_profiles w) (learned_patterns w) (global_patterns w)
          (tl (faults w)) (clock w) (trace w).

(** [SupabaseTable.execute]: one round trip; never raises. *)
Definition execute (rq : Request) (w : World) : Response * World :=
  match faults w with
  | Some err :: _ =>
      let rs := mkResponse [] (Some err) in
      (rs, log rq rs (pop_fault w))
  | _ =>
      let (rs, w') := serve rq (pop_fault w) in
      (rs, log rq rs w')
  end.

(** [if result.error], for the response of a round trip. *)
Definition failed (rs : Response) : bool := truthy_opt (error rs).

(** ['violates foreign key constraint' in str(result.error)] *)
Definition fk_violation (rs : Response) : bool :=
  match error rs with
  | Some e => truthy e && contains "violates foreign key constraint" e
  | None => false
  end.

(** The error scripted for the next round trip, if any. *)
Definition next_fault (w : World) : option string :=
  match faults w with
  | Some err :: _ => Some err
  | _ => None
  end.

(** The tables of [w'] are those of [w]. *)
Definition same_tables (w w' : World) : Prop :=
  user_profiles w' = user_profiles w /\
  learned_patterns w' = learned_patterns w /\
  global_patterns w' = global_patterns w.

(** The requests a run added to the log. *)
Definition new_events (w w' : World) : list (Request * Response) :=
  drop (length (trace w)) (trace w').

(** The answer to a read of [user_profiles]. *)
Record ProfileResponse := mkProfileResponse {
  profile_rows : list ProfileRow;
  profile_error : option string
}.

(** [table('user_profiles').select("*").eq('email', user).execute()]: the
    round trip of [execute] for a read whose rows are profiles.  It takes
    its turn in the fault script; [trace] stays the log of the requests
    that carry pattern rows. *)
Definition execute_profile_read (user : string) (w : World) : ProfileResponse * World :=
  match faults w with
  | Some err :: _ => (mkProfileResponse [] (Some err), pop_fault w)
  | _ =>
      (mkProfileResponse
         (List.filter (fun pr => String.eqb (email pr) user) (user_profiles w)) None,
       pop_fault w)
  end.

(** The sum of the counts of a breakdown. *)
Definition sum_counts (breakdown : gmap string nat) : nat :=
  map_fold (fun _ n acc => n + acc) 0 breakdown.

(** The rows that carry an intent. *)
Definition with_intent (intent : string) (rows : list DbRow.t) : list DbRow.t :=
  List.filter (fun p => String.eqb (DbRow.intent p) intent) rows.

(** *** Invariants of the private table *)

(** The primary key: no two rows share an id. *)
Definition distinct_ids (rows : list DbRow.t) : Prop :=
  List.NoDup (map DbRow.id rows).

(** No owner has two rows for one question text. *)
Definition one_row_per_key (rows : list DbRow.t) : Prop :=
  forall user q, length (List.filter (keyed user q) rows) <= 1.

(** Every stored question text is in normal form. *)
Definition normalized_rows (rows : list DbRow.t) : Prop :=
  List.Forall (fun r => normalize (DbRow.question_pattern r) = DbRow.question_pattern r)
              rows.

(** One of the sixteen characters of a lowercase hexadecimal number. *)
Definition is_hex_digit (c : ascii) : bool :=
  existsb (Ascii.eqb c) (list_ascii_of_string "0123456789abcdef").

(** ** The service *)

Section Service.

(** [config], from the absent [config.py]. *)
Variable config : Config.
(** [datetime.now().isoformat()] at the n-th reading of the clock. *)
Variable isoformat_now : nat -> string.
(** [ai_service.predict_answer], the call of the hosted model (the
    module is not among the sources); it may raise. *)
Variable predict_answer : AIRequest.t -> outcome AIResponse.t.

Definition datetime_now (w : World) : string * World :=
  (isoformat_now (clock w),
   mkWorld (user_profiles w) (learned_patterns w) (global_patterns w)
           (faults w) (S (clock w)) (trace w)).

(** *** pattern_service.read_patterns *)
Definition read_patterns (w : World) : list DbRow.t * World :=
  let (result, w) := execute GetGlobal w in
  if failed result then ([], w) else (data result, w).

(** Conversion of a row to the extension's format. *)
Definition to_match (p : DbRow.t) : MemoryMatch.t :=
  MemoryMatch.mk (DbRow.id p) (DbRow.question_pattern p) (DbRow.intent p)
                 (DbRow.canonical_key p) (DbRow.answer_mappings p).

Definition exact_match (question_lower : string) (p : DbRow.t) : bool :=
  String.eqb (normalize (DbRow.question_pattern p)) question_lower.

(** The loop over the owner's private rows: exact matches only. *)
Fixpoint search_private (question_lower : string) (rows : list DbRow.t)
  : option MemoryMatch.t :=
  match rows with
  | [] => None
  | p :: rest =>
      if exact_match question_lower p then Some (to_match p)
      else search_private question_lower rest
  end.

Definition words (s : string) : gset string := list_to_set (split s).

(** [len(matched_words) / max(len(q_words), len(p_words))] *)
Definition similarity (q_words p_words : gset string) : float :=
  (float_of_nat (size (q_words ∩ p_words)) /
   float_of_nat (Nat.max (size q_words) (size p_words)))%float.

(** The fuzzy test of one candidate. *)
Definition fuzzy_match (question_lower pattern_question : string) : bool :=
  let q_words := words question_lower in
  let p_words := words pattern_question in
  if ((0 <? size q_words) && (0 <? size p_words))%nat then
    (FUZZY_MATCH_THRESHOLD config <=? similarity q_words p_words)%float
  else false.

(** What the loop body decides for one global row: exact, then fuzzy. *)
Definition qualifies (question_lower : string) (p : DbRow.t) : bool :=
  exact_match question_lower p
  || fuzzy_match question_lower (normalize (DbRow.question_pattern p)).

(** The loop over the global rows. *)
Fixpoint search_global (question_lower : string) (patterns : list DbRow.t)
  : option MemoryMatch.t :=
  match patterns with
  | [] => None
  | p :: rest =>
      let pattern_question := normalize (DbRow.question_pattern p) in
      if String.eqb pattern_question question_lower then Some (to_match p)
      else if fuzzy_match question_lower pattern_question then Some (to_match p)
      else search_global question_lower rest
  end.

(** *** pattern_service.search_pattern *)
Definition search_pattern (question : string) (user_email : option string)
           (w : World) : option MemoryMatch.t * World :=
  let question_lower := normalize question in
  let (private_hit, w) :=
    if truthy_opt user_email then
      let (result, w) := execute (GetLearnedByUser (default "" user_email)) w in
      if negb (failed result) then (search_private question_lower (data result), w)
      else (None, w)
    else (None, w) in
  match private_hit with
  | Some m => (Some m, w)
  | None =>
      let (patterns, w) := read_patterns w in
      (search_global question_lower patterns, w)
  end.

(** *** resume_service.save_user_profile *)
Definition save_user_profile (user : string) (profile : json) (w : World)
  : bool * World :=
  let clean_data :=
    match json_get "profile_data" profile with
    | Some inner => inner
    | None => profile
    end in
  let (now, w) := datetime_now w in
  let db_data := mkProfileRow user clean_data now in
  let (_, w) := execute (UpsertProfile db_data (Some "email")) w in
  (true, w).

(** The minimal profile written by the self-heal. *)
Definition stub_profile (user : string) : json :=
  JObject [("personal", JObject [("email", JString user)])].

(** [f"pattern_{md5(f'{user}:{question}:{intent}').hexdigest()[:12]}"] *)
Definition pattern_id (user normalized_question intent : string) : string :=
  let deterministic_key := user +:+ ":" +:+ normalized_question +:+ ":" +:+ intent in
  "pattern_" +:+ substring 0 12 (MD5.hexdigest deterministic_key).

(** *** pattern_service.save_pattern *)

(** [db_data] as first prepared: the normalized question, the
    deterministic id and the two timestamps. *)
Definition build_db_data (pattern : Pattern.t) (user : string) (w : World)
  : DbRow.t * World :=
  let normalized_question := normalize (Pattern.questionPattern pattern) in
  let intent := Pattern.intent pattern in
  let (last_used, w) := datetime_now w in
  let (created_at, w) :=
    if truthy_opt (Pattern.createdAt pattern)
    then (default "" (Pattern.createdAt pattern), w)
    else datetime_now w in
  (DbRow.mk (pattern_id user normalized_question intent) user
            normalized_question intent (Pattern.canonicalKey pattern)
            (Pattern.fieldType pattern) (Pattern.confidence pattern)
            (Pattern.answerMappings pattern) last_used created_at, w).

(** The row as written: under the id of the row found, if one was. *)
Definition with_existing_id (existing : Response) (db_data : DbRow.t) : DbRow.t :=
  match data existing with
  | found :: _ => DbRow.set_id (DbRow.id found) db_data
  | [] => db_data
  end.

(** Upsert when the lookup found a row, insert otherwise. *)
Definition first_write (existing : Response) (db_data : DbRow.t) : Request :=
  match data existing with
  | _ :: _ => UpsertLearned db_data None
  | [] => InsertLearned db_data
  end.

(** The foreign-key repair: stub profile, then one retried upsert. *)
Definition self_heal (user : string) (db_data : DbRow.t) (result : Response)
           (w : World) : Response * World :=
  if fk_violation result then
    let (_, w) := save_user_profile user (stub_profile user) w in
    execute (UpsertLearned db_data (Some "id")) w
  else (result, w).

Definition save_pattern (pattern : Pattern.t) (user_email : option string)
           (w : World) : bool * World :=
  if negb (truthy_opt user_email) then (false, w)
  else
    let user := default "" user_email in
    let (db_data, w) := build_db_data pattern user w in
    let (existing, w) :=
      execute (GetLearnedIds user (DbRow.question_pattern db_data)) w in
    let db_data := with_existing_id existing db_data in
    let (result, w) := execute (first_write existing db_data) w in
    let (result, w) := self_heal user db_data result w in
    if failed result then (false, w) else (true, w).

(** *** app.predict *)

(** The answer read off a memory match: the first mapping's first
    variant, or else its canonical value. *)
Definition extract_answer (memory_match : MemoryMatch.t) : string :=
  match MemoryMatch.answerMappings memory_match with
  | [] => ""
  | first :: _ =>
      match default [] (variants first) with
      | v :: _ => v
      | [] => default "" (canonicalValue first)
      end
  end.

(** The lookup gave nothing the handler returns: no match, or a match
    whose extracted answer is falsy. *)
Definition memory_miss (memory_match : option MemoryMatch.t) : bool :=
  match memory_match with
  | Some m => negb (truthy (extract_answer m))
  | None => true
  end.

(** [if not ai_response.intent: ai_response.intent = "unknown"] *)
Definition ensure_intent (r : AIResponse.t) : AIResponse.t :=
  if truthy_opt (AIResponse.intent r) then r
  else AIResponse.mk (AIResponse.answer r) (AIResponse.confidence r)
                     (AIResponse.reasoning r) (Some "unknown").

(** [ai_response.answer and ai_response.confidence >= 0.70] *)
Definition learn_gate (r : AIResponse.t) : bool :=
  truthy (AIResponse.answer r) && (0.70 <=? AIResponse.confidence r)%float.

(** The pattern built from a fresh prediction. *)
Definition learned_pattern (request : AIRequest.t) (r : AIResponse.t) : Pattern.t :=
  Pattern.mk None (normalize (AIRequest.question request))
             (default "" (AIResponse.intent r)) None
             (AIRequest.fieldType request) (AIResponse.confidence r) (Some "AI")
             [mkAnswerMapping (Some (AIResponse.answer r))
                              (Some [AIResponse.answer r])
                              (Some (default [] (AIRequest.options request)))]
             None.

Section Learner.

(** The write-back the handler calls inside [try: ... except: pass];
    [predict] below fixes it to [save_pattern]. *)
Variable save :
  Pattern.t -> option string -> World -> outcome bool * World.

(** Steps 2 and 3 of the handler: the model call and the learning. *)
Definition ai_fallback (request : AIRequest.t) (w : World)
  : outcome AIResponse.t * World :=
  match predict_answer request with
  | Raised e => (Raised e, w)
  | Returned ai_response =>
      let ai_response := ensure_intent ai_response in
      if learn_gate ai_response then
        let (_, w) :=
          save (learned_pattern request ai_response)
               (AIRequest.userEmail request) w in
        (Returned ai_response, w)
      else (Returned ai_response, w)
  end.

Definition predict_with (request : AIRequest.t) (w : World)
  : outcome AIResponse.t * World :=
  let (memory_match, w) := search_pattern (AIRequest.question request) None w in
  match memory_match with
  | Some m =>
      let answer := extract_answer m in
      if truthy answer then
        (Returned (AIResponse.mk answer (PATTERN_MEMORY_CONFIDENCE config)
                                 "Retrieved from Pattern Memory"
                                 (Some (MemoryMatch.intent m))), w)
      else ai_fallback request w
  | None => ai_fallback request w
  end.

End Learner.

(** [save_pattern] as the handler sees it. *)
Definition save_pattern_call (pattern : Pattern.t) (user_email : option string)
           (w : World) : outcome bool * World :=
  let (ok, w) := save_pattern pattern user_email w in (Returned ok, w).

Definition predict (request : AIRequest.t) (w : World)
  : outcome AIResponse.t * World :=
  predict_with save_pattern_call request w.

(** *** pattern_service.get_stats *)

(** [intent_breakdown[intent] = intent_breakdown.get(intent, 0) + 1] *)
Definition count_intent (intent_breakdown : gmap string nat) (p : DbRow.t)
  : gmap string nat :=
  <[DbRow.intent p := default 0 (intent_breakdown !! DbRow.intent p) + 1]>
    intent_breakdown.

Definition get_stats (w : World) : Stats * World :=
  let (result, w) := execute GetGlobal w in
  let patterns := data result in
  (mkStats (length patterns) (fold_left count_intent patterns ∅), w).

(** *** pattern_service.get_user_patterns *)
Definition get_user_patterns (user : string) (w : World) : list DbRow.t * World :=
  let (result, w) := execute (GetLearnedByUser user) w in
  (data result, w).

(** *** resume_service.get_user_profile *)
Definition get_user_profile (user : string) (w : World) : option json * World :=
  let (result, w) := execute_profile_read user w in
  match profile_rows result with
  | row :: _ => (Some (unwrap_profile_data (profile_data row)), w)
  | [] => (None, w)
  end.

(** *** app.upload_pattern *)
Definition upload_pattern (pattern : Pattern.t) (user_email : option string)
           (w : World) : UploadReply * World :=
  let (success, w) := save_pattern pattern user_email w in
  if success then (Uploaded "Pattern uploaded successfully", w)
  else (Rejected "Pattern rejected - email required", w).

(** *** app.search_patterns *)
Definition search_patterns (q : string) (w : World)
  : outcome (list MemoryMatch.t) * World :=
  if negb (truthy q) then (Raised "400: Query parameter 'q' is required", w)
  else
    let (found, w) := search_pattern q None w in
    (Returned (match found with Some m => [m] | None => [] end), w).

(** *** app.pattern_stats *)
Definition pattern_stats (w : World) : Stats * World := get_stats w.

(** *** app.sync_patterns: the patterns and their [total] *)
Definition sync_patterns (w : World) : (list DbRow.t * nat) * World :=
  let (patterns, w) := read_patterns w in
  ((patterns, length patterns), w).

(** *** app.get_user_data *)
Definition get_user_data (user : string) (w : World) : outcome json * World :=
  let (profile, w) := get_user_profile user w in
  match profile with
  | Some d => if json_truthy d then (Returned d, w)
              else (Raised "404: Profile not found", w)
  | None => (Raised "404: Profile not found", w)
  end.

End Service.

(** ** Sample data *)

Definition sample_config : Config := mkConfig 0.5 0.95.

Definition sample_clock (n : nat) : string :=
  "2024-05-01T12:00:0" +:+ String (ascii_of_nat (48 + n mod 10)) EmptyString.

Definition global_row (i question intent answer : string) : DbRow.t :=
  DbRow.mk i "" question intent None (Some "text") 1.0
           [mkAnswerMapping (Some answer) (Some [answer]) None]
           "2024-04-01T09:00:00" "2024-04-01T09:00:00".

Definition private_row (i user question intent answer : string) : DbRow.t :=
  DbRow.mk i user question intent None (Some "text") 0.9
           [mkAnswerMapping (Some answer) (Some [answer]) None]
           "2024-04-02T09:00:00" "2024-04-02T09:00:00".

Definition empty_world : World := mkWorld [] [] [] [] 0 [].

(** A global store whose first row is only similar to the query
    [what is your name] and whose second row equals it. *)
Definition similar_row : DbRow.t :=
  global_row "g1" "What is your full name" "personal.fullName" "Ada Lovelace".

Definition equal_row : DbRow.t :=
  global_row "g2" "what is your name" "personal.firstName" "Ada".

Definition similar_then_equal : list DbRow.t := [similar_row; equal_row].

Definition world_similar_then_equal : World :=
  mkWorld [] [] similar_then_equal [] 0 [].

(** A store in which both the owner's private rows and the global rows
    hold the question [what is your gender?]. *)
Definition gender_row_b : DbRow.t :=
  private_row "pattern_b" "b@x.com" "what is your gender?" "eeo.gender" "Female".

Definition gender_row_a : DbRow.t :=
  private_row "pattern_a" "a@x.com" "what is your gender?" "eeo.gender" "Male".

Definition profile_a : ProfileRow :=
  mkProfileRow "a@x.com" (JObject []) "2024-04-01T08:00:00".

Definition world_private_and_global : World :=
  mkWorld [profile_a] [gender_row_b; gender_row_a]
          [global_row "g5" "What is your gender?" "eeo.gender" "Prefer not to say"]
          [] 0 [].

(** The owner's private row alone: the global store is empty. *)
Definition world_private_only : World :=
  mkWorld [profile_a] [gender_row_a] [] [] 0 [].

(** A global row stored with an empty intent. *)
Definition world_intentless_global : World :=
  mkWorld [] [] [global_row "g6" "what is your name" "" "Ada"] [] 0 [].

Definition name_request : AIRequest.t :=
  AIRequest.mk "What is your name" (Some "text") None None.

(** Two learned answers to one question, differing in case and spacing. *)
Definition first_answer : Pattern.t :=
  Pattern.mk None "What is your gender? " "eeo.gender" None (Some "radio") 0.8
             (Some "AI") [mkAnswerMapping (Some "Male") (Some ["Male"]) (Some [])] None.

Definition second_answer : Pattern.t :=
  Pattern.mk None " what is your GENDER?" "eeo.gender" None (Some "radio") 0.9
             (Some "AI") [mkAnswerMapping (Some "Female") (Some ["Female"]) (Some [])] None.

(** The owner's profile alone. *)
Definition world_profile_only : World := mkWorld [profile_a] [] [] [] 0 [].

(** The requests that write a row of [learned_patterns]. *)
Definition is_pattern_write (rq : Request) : bool :=
  match rq with
  | InsertLearned _ | UpsertLearned _ _ => true
  | _ => false
  end.

Definition pattern_writes (w : World) : nat :=
  length (List.filter is_pattern_write (map fst (trace w))).

(** A store without the owner's profile, whose fourth round trip times out. *)
Definition world_retry_fails : World :=
  mkWorld [] [] [] [None; None; None; Some "upstream timeout"] 0 [].

(** A hosted model that is unsure, and one that is confident. *)
Definition unsure_model (_ : AIRequest.t) : outcome AIResponse.t :=
  Returned (AIResponse.mk "Female" 0.69 "Guessed from the options" None).

Definition confident_model (_ : AIRequest.t) : outcome AIResponse.t :=
  Returned (AIResponse.mk "Female" 0.70 "Read from the profile" (Some "eeo.gender")).

Definition silent_model (_ : AIRequest.t) : outcome AIResponse.t :=
  Returned (AIResponse.mk "" 0.70 "Nothing to say" None).

(** Write-backs that succeed, fail and raise without touching the store. *)
Definition write_ok (_ : Pattern.t) (_ : option string) (w : World)
  : outcome bool * World := (Returned true, w).

Definition write_refused (_ : Pattern.t) (_ : option string) (w : World)
  : outcome bool * World := (Returned false, w).

Definition write_raises (_ : Pattern.t) (_ : option string) (w : World)
  : outcome bool * World := (Raised "connection reset", w).

(** A write-back that only counts its calls, on the clock. *)
Definition write_counted (_ : Pattern.t) (_ : option string) (w : World)
  : outcome bool * World :=
  (Returned true,
   mkWorld (user_profiles w) (learned_patterns w) (global_patterns w)
           (faults w) (S (clock w)) (trace w)).

Definition gender_request : AIRequest.t :=
  AIRequest.mk "What is your gender?" (Some "radio")
               (Some ["Male"; "Female"]) (Some "a@x.com").

(** A global row that matches [gender_request] and maps to no answer. *)
Definition world_answerless_match : World :=
  mkWorld []
    []
    [ DbRow.mk "g7" "" "what is your gender?" "eeo.gender" None None 1.0
               [mkAnswerMapping (Some "") (Some []) None]
               "2024-04-01T09:00:00" "2024-04-01T09:00:00" ]
    [] 0 [].

Definition six_words : string := "alpha beta gamma delta epsilon zeta".

Definition six_words_three_shared : DbRow.t :=
  global_row "g3" "Alpha beta gamma one two three" "misc" "x".

Definition six_words_two_shared : DbRow.t :=
  global_row "g4" "Alpha beta four one two three" "misc" "y".

(** Three global rows, two of them with one intent. *)
Definition world_three_globals : World :=
  mkWorld [] []
    [ global_row "g8" "what is your gender?" "eeo.gender" "Male";
      global_row "g9" "what is your name" "personal.firstName" "Ada";
      global_row "g10" "gender" "eeo.gender" "Male" ]
    [] 0 [].

(** A store whose next round trip times out. *)
Definition world_next_fails : World :=
  mkWorld [] [] [] [Some "upstream timeout"] 0 [].


(** An upload of low confidence, its question in another spelling. *)
Definition low_confidence_upload : Pattern.t :=
  Pattern.mk None "  What is your GENDER? " "eeo.gender" None (Some "radio") 0.1
             (Some "manual")
             [mkAnswerMapping (Some "Non-binary") (Some ["Non-binary"; "NB"]) None] None.

Definition sample_profile : json :=
  JObject [("personal", JObject [("firstName", JString "Ada")])].

Definition wrapped_profile : json := JObject [("profile_data", sample_profile)].

(** A lookup that times out before a save under another intent. *)
Definition world_lookup_fails : World :=
  mkWorld [profile_a] [gender_row_a] [] [Some "upstream timeout"] 0 [].

(** A hosted model that is unreachable. *)
Definition failing_model (_ : AIRequest.t) : outcome AIResponse.t :=
  Raised "bedrock: connection refused".

(** [gender_request] without an owner. *)
Definition anonymous_request : AIRequest.t :=
  AIRequest.mk "What is your gender?" (Some "radio") (Some ["Male"; "Female"]) None.

(** Two questions of one owner under one intent whose deterministic ids
    coincide: the first twelve hexadecimal digits of the two MD5 digests
    are [77235c363e99]. *)
Definition earlier_question : Pattern.t :=
  Pattern.mk None "Custom question 15069006" "personal.firstName" None (Some "text") 0.8
             (Some "AI") [mkAnswerMapping (Some "Ada") (Some ["Ada"]) (Some [])] None.

Definition colliding_first : Pattern.t :=
  Pattern.mk None "Custom question 29386511" "personal.firstName" None (Some "text") 0.8
             (Some "AI") [mkAnswerMapping (Some "Ada") (Some ["Ada"]) (Some [])] None.

Definition colliding_second : Pattern.t :=
  Pattern.mk None "Custom question 29386511" "personal.firstName" None (Some "text") 0.9
             (Some "AI") [mkAnswerMapping (Some "Grace") (Some ["Grace"]) (Some [])] None.

(** ** Properties of the normalizer *)

Ltac each_ascii c :=
  destruct c as [[] [] [] [] [] [] [] []]; reflexivity.

Lemma lower_char_idempotent c : lower_char (lower_char c) = lower_char c.
Proof. each_ascii c. Qed.

Lemma is_space_lower_char c : is_space (lower_char c) = is_space c.
Proof. each_ascii c. Qed.

Lemma lower_idempotent s : lower (lower s) = lower s.
Proof.
  induction s as [|c s IH]; simpl; [reflexivity|].
  rewrite lower_char_idempotent, IH. reflexivity.
Qed.

Lemma lower_lstrip s : lower (lstrip s) = lstrip (lower s).
Proof.
  induction s as [|c s IH]; simpl; [reflexivity|].
  rewrite is_space_lower_char. destruct (is_space c); [exact IH | reflexivity].
Qed.

Lemma lower_rstrip s : lower (rstrip s) = rstrip (lower s).
Proof.
  induction s as [|c s IH]; simpl; [reflexivity|].
  rewrite <- IH, is_space_lower_char.
  destruct (rstrip s); simpl; [destruct (is_space c)|]; reflexivity.
Qed.

Lemma lower_strip s : lower (strip s) = strip (lower s).
Proof. unfold strip. rewrite lower_rstrip, lower_lstrip. reflexivity. Qed.

Lemma rstrip_idempotent s : rstrip (rstrip s) = rstrip s.
Proof.
  induction s as [|c s IH]; simpl; [reflexivity|].
  destruct (rstrip s) as [|c' t] eqn:E.
  - destruct (is_space c) eqn:Hc; simpl; [reflexivity|]. rewrite Hc. reflexivity.
  - change (rstrip (String c (String c' t))) with
      (match rstrip (String c' t) with
       | EmptyString => if is_space c then EmptyString else String c EmptyString
       | u => String c u
       end).
    rewrite IH. reflexivity.
Qed.

(** What [lstrip] leaves is empty or starts with a character that is
    no whitespace, and [rstrip] keeps such a start. *)
Lemma lstrip_rstrip_lstrip s : lstrip (rstrip (lstrip s)) = rstrip (lstrip s).
Proof.
  induction s as [|c s IH]; simpl; [reflexivity|].
  destruct (is_space c) eqn:Hc; [exact IH|].
  simpl. destruct (rstrip s); rewrite ?Hc; simpl; rewrite Hc; reflexivity.
Qed.

Lemma strip_idempotent s : strip (strip s) = strip s.
Proof.
  unfold strip. rewrite lstrip_rstrip_lstrip. apply rstrip_idempotent.
Qed.

Lemma lower_char_ascii c :
  Nat.ltb (nat_of_ascii (lower_char c)) 128 = Nat.ltb (nat_of_ascii c) 128.
Proof. each_ascii c. Qed.

Lemma is_ascii_text_lower s : is_ascii_text (lower s) = is_ascii_text s.
Proof.
  unfold is_ascii_text.
  induction s as [|c s IH]; [reflexivity|].
  cbn [lower list_ascii_of_string forallb]. rewrite lower_char_ascii, IH. reflexivity.
Qed.

Lemma is_ascii_text_lstrip s : is_ascii_text s = true -> is_ascii_text (lstrip s) = true.
Proof.
  unfold is_ascii_text.
  induction s as [|c s IH]; [reflexivity|].
  intros H. cbn [lstrip]. destruct (is_space c); [|exact H].
  cbn [list_ascii_of_string forallb] in H. apply andb_prop in H as [_ H]. exact (IH H).
Qed.

Lemma is_ascii_text_rstrip s : is_ascii_text s = true -> is_ascii_text (rstrip s) = true.
Proof.
  unfold is_ascii_text.
  induction s as [|c s IH]; [reflexivity|].
  intros H. cbn [list_ascii_of_string forallb] in H. apply andb_prop in H as [Hc H].
  specialize (IH H). cbn [rstrip].
  destruct (rstrip s) as [|c' t].
  - destruct (is_space c); [reflexivity|].
    cbn [list_ascii_of_string forallb]. rewrite Hc. reflexivity.
  - cbn [list_ascii_of_string forallb] in IH |- *. rewrite Hc. exact IH.
Qed.

(** On ASCII text, where [lower] and [strip] are Python's, the normal
    form is ASCII text again and normalizing twice is normalizing once. *)
Theorem normalize_idempotent (s : string) :
  is_ascii_text s = true ->
  is_ascii_text (normalize s) = true /\
  normalize (normalize s) = normalize s.
Proof.
  intros Hascii. split.
  - unfold normalize, strip.
    apply is_ascii_text_rstrip, is_ascii_text_lstrip.
    rewrite is_ascii_text_lower. exact Hascii.
  - unfold normalize.
    rewrite lower_strip, lower_idempotent. apply strip_idempotent.
Qed.

(** ** Properties of the matcher *)

Section MatcherProperties.

Variable config : Config.

Lemma search_global_cons question_lower p rest :
  search_global config question_lower (p :: rest) =
  if qualifies config question_lower p then Some (to_match p)
  else search_global config question_lower rest.
Proof.
  unfold qualifies, exact_match. simpl.
  destruct (String.eqb _ question_lower); reflexivity.
Qed.

Lemma search_global_skip question_lower before rest :
  Forall (fun x => qualifies config question_lower x = false) before ->
  search_global config question_lower (before ++ rest) =
  search_global config question_lower rest.
Proof.
  induction 1 as [|x before Hx _ IH]; [reflexivity|].
  rewrite <- app_comm_cons, search_global_cons, Hx. exact IH.
Qed.

(** C4 (amended): the global scan tests each row in store order, for
    equality of the normalized texts and then for word overlap, and
    returns the first row that passes either test; when it returns
    nothing, no row passes either test.  An exact match is thus returned
    exactly when no earlier row qualifies, exactly or fuzzily. *)
Theorem search_global_first_qualifying (question_lower : string) (rows : list DbRow.t) :
  match search_global config question_lower rows with
  | Some m =>
      exists before p after,
        rows = before ++ p :: after /\
        m = to_match p /\
        qualifies config question_lower p = true /\
        Forall (fun x => qualifies config question_lower x = false) before
  | None => Forall (fun x => qualifies config question_lower x = false) rows
  end.
Proof.
  induction rows as [|p rest IH]; [constructor|].
  rewrite search_global_cons.
  destruct (qualifies config question_lower p) eqn:Hp.
  - exists [], p, rest. repeat split; auto.
  - destruct (search_global config question_lower rest) as [m|].
    + destruct IH as (before & p' & after & -> & -> & Hq & Hb).
      exists (p :: before), p', after. repeat split; auto.
    + constructor; assumption.
Qed.

(** C7: with no earlier qualifying row and no exact match on the
    candidate itself, the candidate is returned exactly when both word
    sets are non-empty and [|shared| / max(|query|, |candidate|)] is at
    least the configured threshold; otherwise it is skipped and the scan
    goes on.  The division is only evaluated with a positive divisor. *)
Theorem fuzzy_overlap_first_qualifying
  (question_lower : string) (before after : list DbRow.t) (p : DbRow.t) :
  Forall (fun x => qualifies config question_lower x = false) before ->
  exact_match question_lower p = false ->
  let q_words := words question_lower in
  let p_words := words (normalize (DbRow.question_pattern p)) in
  let overlap :=
    (float_of_nat (size (q_words ∩ p_words)) /
     float_of_nat (Nat.max (size q_words) (size p_words)))%float in
  search_global config question_lower (before ++ p :: after) =
    (if (0 <? size q_words)%nat && (0 <? size p_words)%nat
        && (FUZZY_MATCH_THRESHOLD config <=? overlap)%float
     then Some (to_match p)
     else search_global config question_lower after)
  /\ ((0 <? size q_words)%nat && (0 <? size p_words)%nat = true ->
      0 < Nat.max (size q_words) (size p_words)).
Proof.
  intros Hbefore Hexact q_words p_words overlap. split.
  - rewrite (search_global_skip _ _ _ Hbefore), search_global_cons.
    unfold qualifies. rewrite Hexact. simpl orb.
    unfold fuzzy_match, similarity. fold q_words p_words overlap.
    destruct ((0 <? size q_words)%nat && (0 <? size p_words)%nat); simpl;
      [destruct (FUZZY_MATCH_THRESHOLD config <=? overlap)%float|]; reflexivity.
  - intros H. apply andb_prop in H as [Hq _].
    apply Nat.ltb_lt in Hq. lia.
Qed.

End MatcherProperties.

(** ** Properties of [search_pattern] *)

Section SearchProperties.

Variable config : Config.

Lemma execute_served rq w :
  next_fault w = None ->
  execute rq w =
  (fst (serve rq (pop_fault w)),
   log rq (fst (serve rq (pop_fault w))) (snd (serve rq (pop_fault w)))).
Proof.
  unfold next_fault, execute. intros H.
  destruct (faults w) as [|[err|] rest]; try discriminate;
    destruct (serve rq (pop_fault w)); reflexivity.
Qed.

Lemma new_events_log rq rs w w' :
  trace w' = trace w ->
  new_events w (log rq rs w') = [(rq, rs)].
Proof.
  intros H. unfold new_events, log. simpl. rewrite H.
  rewrite drop_app_length. reflexivity.
Qed.

Lemma search_private_hit question_lower rows r :
  r ∈ rows ->
  exact_match question_lower r = true ->
  exists r', search_private question_lower rows = Some (to_match r')
             /\ r' ∈ rows /\ exact_match question_lower r' = true.
Proof.
  induction rows as [|x rows IH]; intros Hin Hr.
  - inversion Hin.
  - simpl. destruct (exact_match question_lower x) eqn:Hx.
    + exists x. repeat split; [left | assumption].
    + apply elem_of_cons in Hin as [-> | Hin]; [congruence|].
      destruct (IH Hin Hr) as (r' & Hs & Hin' & Hr').
      exists r'. repeat split; [assumption | right; assumption | assumption].
Qed.

(** C6: when the owner's private rows hold an exact normalized-text
    match for the query, [search_pattern] returns a private row of that
    owner that matches exactly, whatever the global store holds, and
    the only request it sends is the read of the owner's private rows:
    the global store is not consulted. *)
Theorem search_pattern_private_precedence
  (question user : string) (w : World) (r : DbRow.t) :
  truthy user = true ->
  next_fault w = None ->
  r ∈ learned_patterns w ->
  owned_by user r = true ->
  exact_match (normalize question) r = true ->
  exists r' w',
    search_pattern config question (Some user) w = (Some (to_match r'), w') /\
    r' ∈ learned_patterns w /\
    owned_by user r' = true /\
    exact_match (normalize question) r' = true /\
    new_events w w' =
      [(GetLearnedByUser user,
        mkResponse (List.filter (owned_by user) (learned_patterns w)) None)].
Proof.
  intros Huser Hfault Hin Howner Hexact.
  assert (Hrows : r ∈ List.filter (owned_by user) (learned_patterns w)).
  { apply list_elem_of_In, filter_In. split; [apply list_elem_of_In, Hin | exact Howner]. }
  destruct (search_private_hit _ _ _ Hrows Hexact) as (r' & Hs & Hin' & Hr').
  apply list_elem_of_In, filter_In in Hin' as [Hin' Hown'].
  exists r'. eexists. unfold search_pattern.
  cbn [truthy_opt default]. unfold id. rewrite Huser.
  rewrite (execute_served _ _ Hfault). cbn [serve fst snd pop_fault learned_patterns].
  cbn [failed error truthy_opt negb data]. rewrite Hs.
  repeat split; try assumption.
  - apply list_elem_of_In, Hin'.
  - apply new_events_log. reflexivity.
Qed.

Lemma execute_read_same_tables rq w :
  match rq with
  | GetLearnedByUser _ | GetLearnedIds _ _ | GetGlobal => True
  | _ => False
  end ->
  same_tables w (snd (execute rq w)).
Proof.
  unfold execute, same_tables.
  destruct rq; try contradiction; intros _;
    destruct (faults w) as [|[err|] rest]; simpl; repeat split; reflexivity.
Qed.

(** Matching is read-only: whatever the question, the owner and the
    answers of the store, [search_pattern] leaves the three tables as
    they were. *)
Theorem search_pattern_read_only
  (question : string) (user_email : option string) (w : World) :
  same_tables w (snd (search_pattern config question user_email w)).
Proof.
  unfold search_pattern.
  assert (Hglobal : forall w0, same_tables w w0 ->
            same_tables w (snd (let (patterns, w1) := read_patterns w0 in
                                (search_global config (normalize question) patterns, w1)))).
  { intros w0 (H1 & H2 & H3). unfold read_patterns.
    pose proof (execute_read_same_tables GetGlobal w0 I) as (E1 & E2 & E3).
    destruct (execute GetGlobal w0) as [rs w1]. simpl in E1, E2, E3.
    destruct (failed rs); simpl; repeat split; congruence. }
  destruct (truthy_opt user_email).
  - pose proof (execute_read_same_tables (GetLearnedByUser (default "" user_email)) w I)
      as Hread.
    destruct (execute (GetLearnedByUser (default "" user_email)) w) as [rs w1].
    simpl in Hread.
    destruct (negb (failed rs)); [|apply Hglobal; exact Hread].
    destruct (search_private (normalize question) (data rs));
      [exact Hread | apply Hglobal; exact Hread].
  - apply Hglobal. repeat split.
Qed.

End SearchProperties.

(** ** Properties of the [/predict] handler *)

Section PredictProperties.

Variable config : Config.
Variable predict_answer : AIRequest.t -> outcome AIResponse.t.
Variable save : Pattern.t -> option string -> World -> outcome bool * World.

Lemma predict_with_miss request w memory_match w1 :
  search_pattern config (AIRequest.question request) None w = (memory_match, w1) ->
  memory_miss memory_match = true ->
  predict_with config predict_answer save request w =
  ai_fallback predict_answer save request w1.
Proof.
  intros Hsearch Hmiss. unfold predict_with. rewrite Hsearch.
  destruct memory_match as [m|]; [|reflexivity].
  simpl in Hmiss. apply negb_true_iff in Hmiss. rewrite Hmiss. reflexivity.
Qed.

Lemma extract_answer_empty (m : MemoryMatch.t) :
  (MemoryMatch.answerMappings m = [] \/
   exists first rest,
     MemoryMatch.answerMappings m = first :: rest /\
     default [] (variants first) = [] /\
     default "" (canonicalValue first) = "") ->
  extract_answer m = "".
Proof.
  unfold extract_answer.
  intros [-> | (first & rest & -> & -> & ->)]; reflexivity.
Qed.

(** C10: a match whose answer mappings are empty, or whose first
    mapping has no variants and an empty canonical value, is not
    returned.  The handler calls the prediction service on the request in
    the state the lookup left: when the service raises, the handler
    raises; when it returns, the response is the service's answer,
    confidence and reasoning with the intent filled in, and the pattern is
    handed to the write-back exactly when the learning gate is cleared.
    Every response returned is thus the service's, none is the match.  A
    call whose lookup matches nothing takes the same steps from the state
    its lookup left, and gives the same response. *)
Theorem predict_empty_answer_falls_through
  (request : AIRequest.t) (w w1 : World) (m : MemoryMatch.t) :
  search_pattern config (AIRequest.question request) None w = (Some m, w1) ->
  (MemoryMatch.answerMappings m = [] \/
   exists first rest,
     MemoryMatch.answerMappings m = first :: rest /\
     default [] (variants first) = [] /\
     default "" (canonicalValue first) = "") ->
  let model_path (after_lookup : World) :=
    match predict_answer request with
    | Raised e => (Raised e, after_lookup)
    | Returned ai =>
        (Returned (ensure_intent ai),
         if learn_gate (ensure_intent ai)
         then snd (save (learned_pattern request (ensure_intent ai))
                        (AIRequest.userEmail request) after_lookup)
         else after_lookup)
    end in
  predict_with config predict_answer save request w = model_path w1
  /\ (forall r,
        fst (predict_with config predict_answer save request w) = Returned r ->
        exists ai,
          predict_answer request = Returned ai /\
          r = ensure_intent ai /\
          AIResponse.answer r = AIResponse.answer ai /\
          AIResponse.confidence r = AIResponse.confidence ai /\
          AIResponse.reasoning r = AIResponse.reasoning ai)
  /\ (forall w0 w0',
        search_pattern config (AIRequest.question request) None w0 = (None, w0') ->
        predict_with config predict_answer save request w0 = model_path w0' /\
        fst (predict_with config predict_answer save request w0) =
          fst (predict_with config predict_answer save request w)).
Proof.
  intros Hsearch Hempty model_path.
  assert (Hmiss : memory_miss (Some m) = true).
  { simpl. rewrite (extract_answer_empty _ Hempty). reflexivity. }
  assert (Hpath : forall memory_match v v',
    search_pattern config (AIRequest.question request) None v = (memory_match, v') ->
    memory_miss memory_match = true ->
    predict_with config predict_answer save request v = model_path v').
  { intros memory_match v v' Hlookup Hnone.
    rewrite (predict_with_miss _ _ _ _ Hlookup Hnone). unfold ai_fallback, model_path.
    destruct (predict_answer request) as [ai|e]; [|reflexivity].
    destruct (learn_gate (ensure_intent ai)); [|reflexivity].
    destruct (save _ _ v'); reflexivity. }
  pose proof (Hpath _ _ _ Hsearch Hmiss) as Hrun.
  split; [exact Hrun|]. split.
  - intros r Hr. rewrite Hrun in Hr. unfold model_path in Hr.
    destruct (predict_answer request) as [ai|e]; [|discriminate].
    exists ai. split; [reflexivity|].
    cbn [fst] in Hr. inversion Hr as [Hfixed]. split; [reflexivity|].
    unfold ensure_intent. destruct (truthy_opt (AIResponse.intent ai)); repeat split.
  - intros w0 w0' Hnone.
    pose proof (Hpath _ _ _ Hnone eq_refl) as Hrun0.
    split; [exact Hrun0|].
    rewrite Hrun0, Hrun. unfold model_path.
    destruct (predict_answer request); reflexivity.
Qed.

(** C8: after a memory miss and a model answer, the handler hands a
    pattern to the write-back exactly when the answer is non-empty and
    its confidence is at least 0.70; the state it ends in is then the
    one a single call of the write-back leaves, and otherwise the state
    the lookup left. *)
Theorem predict_learn_gate
  (request : AIRequest.t) (w w1 : World) (memory_match : option MemoryMatch.t)
  (ai : AIResponse.t) :
  search_pattern config (AIRequest.question request) None w = (memory_match, w1) ->
  memory_miss memory_match = true ->
  predict_answer request = Returned ai ->
  let fresh := ensure_intent ai in
  predict_with config predict_answer save request w =
    (Returned fresh,
     if truthy (AIResponse.answer ai) && (0.70 <=? AIResponse.confidence ai)%float
     then snd (save (learned_pattern request fresh) (AIRequest.userEmail request) w1)
     else w1).
Proof.
  intros Hsearch Hmiss Hai fresh.
  rewrite (predict_with_miss _ _ _ _ Hsearch Hmiss).
  unfold ai_fallback. rewrite Hai. fold fresh.
  assert (Hgate : learn_gate fresh =
                  truthy (AIResponse.answer ai) && (0.70 <=? AIResponse.confidence ai)%float).
  { unfold learn_gate, fresh, ensure_intent.
    destruct (truthy_opt (AIResponse.intent ai)); reflexivity. }
  rewrite Hgate.
  destruct (truthy (AIResponse.answer ai) && (0.70 <=? AIResponse.confidence ai)%float);
    [|reflexivity].
  destruct (save _ _ w1); reflexivity.
Qed.

(** C9: when the fresh prediction clears the learning gate, the
    response is the model's answer (with its intent filled in) for every
    write-back whatsoever: one that succeeds, one that reports failure,
    one that raises. *)
Theorem predict_response_ignores_write_back
  (request : AIRequest.t) (w w1 : World) (memory_match : option MemoryMatch.t)
  (ai : AIResponse.t) :
  search_pattern config (AIRequest.question request) None w = (memory_match, w1) ->
  memory_miss memory_match = true ->
  predict_answer request = Returned ai ->
  learn_gate (ensure_intent ai) = true ->
  fst (predict_with config predict_answer save request w) =
    Returned (ensure_intent ai).
Proof.
  intros Hsearch Hmiss Hai Hgate.
  rewrite (predict_with_miss _ _ _ _ Hsearch Hmiss).
  unfold ai_fallback. rewrite Hai, Hgate.
  destruct (save _ _ w1); reflexivity.
Qed.

(** The model path never answers with an empty intent.  When the
    service returns, the handler returns its answer, confidence and
    reasoning with an intent that is the service's when that is non-empty
    and [unknown] when it is missing or empty; the pattern handed to the
    write-back, which happens exactly when the answer is non-empty and the
    confidence at least 0.70, carries that same intent. *)
Theorem ai_fallback_intent_never_empty
  (request : AIRequest.t) (w : World) (ai : AIResponse.t) :
  predict_answer request = Returned ai ->
  let intent :=
    match AIResponse.intent ai with
    | Some i => if truthy i then i else "unknown"
    | None => "unknown"
    end in
  let r := AIResponse.mk (AIResponse.answer ai) (AIResponse.confidence ai)
                         (AIResponse.reasoning ai) (Some intent) in
  truthy intent = true /\
  (truthy_opt (AIResponse.intent ai) = true -> Some intent = AIResponse.intent ai) /\
  (truthy_opt (AIResponse.intent ai) = false -> intent = "unknown") /\
  fst (ai_fallback predict_answer save request w) = Returned r /\
  Pattern.intent (learned_pattern request r) = intent /\
  snd (ai_fallback predict_answer save request w) =
    (if truthy (AIResponse.answer ai) && (0.70 <=? AIResponse.confidence ai)%float
     then snd (save (learned_pattern request r) (AIRequest.userEmail request) w)
     else w).
Proof.
  intros Hai intent r.
  assert (Hfixed : ensure_intent ai = r).
  { unfold ensure_intent, r, intent. destruct ai as [a c rs [i|]]; cbn.
    - destruct (truthy i); reflexivity.
    - reflexivity. }
  split.
  { unfold intent. destruct (AIResponse.intent ai) as [i|]; [|reflexivity].
    destruct (truthy i) eqn:Hi; [exact Hi | reflexivity]. }
  split.
  { unfold intent. destruct (AIResponse.intent ai) as [i|]; cbn; [|discriminate].
    intros ->. reflexivity. }
  split.
  { unfold intent. destruct (AIResponse.intent ai) as [i|]; cbn; [|reflexivity].
    intros ->. reflexivity. }
  unfold ai_fallback. rewrite Hai, Hfixed.
  assert (Hgate : learn_gate r =
                  truthy (AIResponse.answer ai) && (0.70 <=? AIResponse.confidence ai)%float)
    by reflexivity.
  rewrite Hgate.
  destruct (truthy (AIResponse.answer ai) && (0.70 <=? AIResponse.confidence ai)%float).
  - destruct (save _ _ w). repeat split.
  - repeat split.
Qed.

End PredictProperties.

(** ** Properties of the store gateway *)

Section GatewayProperties.

Variable isoformat_now : nat -> string.

Lemma serve_trace rq w : trace (snd (serve rq w)) = trace w.
Proof.
  destruct rq; simpl; try reflexivity.
  - destruct (existsb _ _); [reflexivity|].
    destruct (has_profile _ _); reflexivity.
  - destruct (has_profile _ _); reflexivity.
Qed.

Lemma execute_trace rq w rs w' :
  execute rq w = (rs, w') -> trace w' = trace w ++ [(rq, rs)].
Proof.
  unfold execute. intros H.
  pose proof (serve_trace rq (pop_fault w)) as Hs.
  destruct (serve rq (pop_fault w)) as [rs0 w0]. simpl in Hs.
  destruct (faults w) as [|[err|] rest]; inversion H; subst; simpl;
    rewrite ?Hs; reflexivity.
Qed.

Lemma build_db_data_trace pattern user w db w' :
  build_db_data isoformat_now pattern user w = (db, w') ->
  trace w' = trace w /\ DbRow.user_email db = user /\
  DbRow.question_pattern db = normalize (Pattern.questionPattern pattern).
Proof.
  unfold build_db_data. simpl.
  destruct (truthy_opt (Pattern.createdAt pattern)); simpl;
    intros H; inversion H; subst; repeat split; reflexivity.
Qed.


Lemma new_events_app w w' evs :
  trace w' = trace w ++ evs -> new_events w w' = evs.
Proof. intros H. unfold new_events. rewrite H. apply drop_app_length. Qed.

(** *** The tables under writes *)

Lemma replace_row_ids r rows :
  map DbRow.id (replace_row r rows) = map DbRow.id rows.
Proof.
  induction rows as [|x rows IH]; [reflexivity|]. simpl.
  unfold has_id. destruct (String.eqb_spec (DbRow.id x) (DbRow.id r)) as [E|_]; simpl.
  - rewrite E. reflexivity.
  - rewrite IH. reflexivity.
Qed.

Lemma existsb_has_id i rows :
  existsb (has_id i) rows = true <-> In i (map DbRow.id rows).
Proof.
  rewrite existsb_exists, in_map_iff. unfold has_id.
  split; intros (x & H1 & H2).
  - apply String.eqb_eq in H2. exists x. auto.
  - exists x. split; [assumption|]. apply String.eqb_eq. assumption.
Qed.

(** Replacing the one stored row of a key, under its own id, leaves
    one stored row of that key: the replacement. *)
Lemma filter_replace_row (key : DbRow.t -> bool) (r0 r : DbRow.t) (rows : list DbRow.t) :
  List.NoDup (map DbRow.id rows) ->
  List.filter key rows = [r0] ->
  DbRow.id r = DbRow.id r0 ->
  key r = true ->
  List.filter key (replace_row r rows) = [r].
Proof.
  intros Hnodup Hfilter Hid Hkey.
  induction rows as [|x rows IH]; [discriminate|].
  simpl in Hnodup. apply NoDup_cons_iff in Hnodup as [Hx Hnodup].
  simpl in Hfilter |- *. unfold has_id.
  destruct (String.eqb_spec (DbRow.id x) (DbRow.id r)) as [E|NE].
  - simpl. rewrite Hkey. f_equal.
    destruct (key x) eqn:Hkx.
    + inversion Hfilter. reflexivity.
    + exfalso. apply Hx.
      assert (Hin : In r0 (List.filter key rows)) by (rewrite Hfilter; left; reflexivity).
      apply filter_In in Hin as [Hin _].
      rewrite E, Hid. apply in_map. exact Hin.
  - simpl. destruct (key x) eqn:Hkx.
    + inversion Hfilter; subst. congruence.
    + apply IH; assumption.
Qed.

Lemma filter_append_row (key : DbRow.t -> bool) (r : DbRow.t) (rows : list DbRow.t) :
  List.filter key rows = [] ->
  key r = true ->
  List.filter key (rows ++ [r]) = [r].
Proof.
  intros Hfilter Hkey. rewrite List.filter_app, Hfilter. simpl. rewrite Hkey. reflexivity.
Qed.

Lemma filter_head_in {A} (f : A -> bool) x rest l :
  List.filter f l = x :: rest -> In x l /\ f x = true.
Proof.
  intros H. apply filter_In. rewrite H. left. reflexivity.
Qed.

Lemma merge_row_existing r rows :
  In (DbRow.id r) (map DbRow.id rows) ->
  merge_row r rows = replace_row r rows.
Proof.
  intros H. unfold merge_row.
  apply existsb_has_id in H. rewrite H. reflexivity.
Qed.

Lemma merge_row_fresh r rows :
  ~ In (DbRow.id r) (map DbRow.id rows) ->
  merge_row r rows = rows ++ [r].
Proof.
  intros H. unfold merge_row.
  destruct (existsb (has_id (DbRow.id r)) rows) eqn:E; [|reflexivity].
  apply existsb_has_id in E. contradiction.
Qed.

Lemma has_profile_merge r profiles :
  has_profile (email r) (merge_profile r profiles) = true.
Proof.
  unfold merge_profile.
  destruct (has_profile (email r) profiles) eqn:E.
  - induction profiles as [|x profiles IH]; [discriminate|].
    simpl in E |- *. destruct (String.eqb (email x) (email r)) eqn:Ex; simpl.
    + rewrite String.eqb_refl. reflexivity.
    + rewrite Ex. simpl. apply IH. exact E.
  - unfold has_profile. rewrite existsb_app. simpl.
    rewrite String.eqb_refl. apply orb_true_iff. right. reflexivity.
Qed.

Lemma fk_error_is_fk_violation rows :
  fk_violation (mkResponse rows (Some fk_error)) = true.
Proof. reflexivity. Qed.

(** *** A store that answers every request *)

Lemma pop_fault_healthy w : faults w = [] -> pop_fault w = w.
Proof. destruct w; simpl; intros ->; reflexivity. Qed.

Lemma execute_healthy rq w :
  faults w = [] ->
  execute rq w =
  (fst (serve rq w), log rq (fst (serve rq w)) (snd (serve rq w))).
Proof.
  intros H. unfold execute. rewrite H, (pop_fault_healthy _ H).
  destruct (serve rq w); reflexivity.
Qed.

Lemma build_db_data_tables pattern user w :
  let w' := snd (build_db_data isoformat_now pattern user w) in
  faults w' = faults w /\
  learned_patterns w' = learned_patterns w /\
  user_profiles w' = user_profiles w.
Proof.
  unfold build_db_data. simpl.
  destruct (truthy_opt (Pattern.createdAt pattern)); simpl; repeat split; reflexivity.
Qed.

(** The first write and the repair, in a store that answers: the row
    ends up merged into the table and no error is left. *)
Lemma write_then_heal_healthy (rq : Request) (db : DbRow.t) (w : World) :
  faults w = [] ->
  (rq = UpsertLearned db None \/
   (rq = InsertLearned db /\ ~ In (DbRow.id db) (map DbRow.id (learned_patterns w)))) ->
  exists rs w',
    (let (result, w1) := execute rq w in
     self_heal isoformat_now (DbRow.user_email db) db result w1) = (rs, w') /\
    failed rs = false /\
    faults w' = [] /\
    learned_patterns w' = merge_row db (learned_patterns w).
Proof.
  intros Hfaults Hrq.
  destruct w as [profiles learned globals fs clk tr]. simpl in Hfaults, Hrq. subst fs.
  destruct (has_profile (DbRow.user_email db) profiles) eqn:Hprofile.
  - destruct Hrq as [-> | [-> Hfresh]].
    + unfold execute. simpl. rewrite Hprofile. simpl.
      eexists _, _. repeat split.
    + unfold execute. simpl.
      destruct (existsb (has_id (DbRow.id db)) learned) eqn:Hex.
      { apply existsb_has_id in Hex. contradiction. }
      rewrite Hprofile. simpl.
      eexists _, _. repeat split. simpl.
      symmetry. apply merge_row_fresh. exact Hfresh.
  - assert (Hheal :
      forall tr',
        exists rs w',
          self_heal isoformat_now (DbRow.user_email db) db
                    (mkResponse [] (Some fk_error))
                    (mkWorld profiles learned globals [] clk tr') = (rs, w') /\
          failed rs = false /\ faults w' = [] /\
          learned_patterns w' = merge_row db learned).
    { intros tr'. unfold self_heal. rewrite fk_error_is_fk_violation.
      unfold save_user_profile, execute. simpl.
      pose proof (has_profile_merge
                    (mkProfileRow (DbRow.user_email db)
                                  (stub_profile (DbRow.user_email db))
                                  (isoformat_now clk)) profiles) as Hm.
      simpl in Hm. rewrite Hm. simpl.
      eexists _, _. repeat split. }
    destruct Hrq as [-> | [-> Hfresh]].
    + unfold execute. simpl. rewrite Hprofile. apply Hheal.
    + unfold execute. simpl.
      destruct (existsb (has_id (DbRow.id db)) learned) eqn:Hex.
      { apply existsb_has_id in Hex. contradiction. }
      rewrite Hprofile. apply Hheal.
Qed.


Lemma build_db_data_key pattern user w :
  let db := fst (build_db_data isoformat_now pattern user w) in
  keyed user (normalize (Pattern.questionPattern pattern)) db = true /\
  DbRow.id db =
    pattern_id user (normalize (Pattern.questionPattern pattern)) (Pattern.intent pattern).
Proof.
  unfold build_db_data, keyed, owned_by, has_question. simpl.
  destruct (truthy_opt (Pattern.createdAt pattern)); simpl;
    rewrite !String.eqb_refl; split; reflexivity.
Qed.

(** One call in a store that answers: it succeeds, and the row is
    written under the id of the stored row of its key, or appended under
    its deterministic id when the key has no row. *)
Lemma save_pattern_healthy (pattern : Pattern.t) (user : string) (w : World) :
  truthy user = true ->
  faults w = [] ->
  let q := normalize (Pattern.questionPattern pattern) in
  let db0 := fst (build_db_data isoformat_now pattern user w) in
  (stored user q w = [] ->
   ~ In (pattern_id user q (Pattern.intent pattern))
        (map DbRow.id (learned_patterns w))) ->
  exists w',
    save_pattern isoformat_now pattern (Some user) w = (true, w') /\
    faults w' = [] /\
    learned_patterns w' =
      match stored user q w with
      | r0 :: _ => replace_row (DbRow.set_id (DbRow.id r0) db0) (learned_patterns w)
      | [] => learned_patterns w ++ [db0]
      end.
Proof.
  intros Huser Hfaults q db0 Hfresh.
  unfold save_pattern. cbn [truthy_opt negb default]. rewrite Huser. cbn [negb]. unfold id.
  pose proof (build_db_data_tables pattern user w) as (Hf0 & Hl0 & _).
  pose proof (build_db_data_key pattern user w) as (Hkey0 & Hid0).
  pose proof (build_db_data_trace pattern user w) as Hq0.
  destruct (build_db_data isoformat_now pattern user w) as [db w0] eqn:Hbuild.
  specialize (Hq0 _ _ eq_refl) as (_ & Huser0 & Hq0).
  cbn [fst snd] in *. subst db0. rewrite Hq0. fold q.
  rewrite Hfaults in Hf0.
  rewrite (execute_healthy _ _ Hf0). cbn [serve fst snd].
  fold (stored user q w0).
  assert (Hstored : stored user q w0 = stored user q w)
    by (unfold stored; rewrite Hl0; reflexivity).
  rewrite Hstored.
  set (existing := mkResponse (stored user q w) None).
  set (w1 := log (GetLearnedIds user q) existing w0).
  assert (Hf1 : faults w1 = []) by exact Hf0.
  assert (Hl1 : learned_patterns w1 = learned_patterns w) by exact Hl0.
  destruct (write_then_heal_healthy
              (first_write existing (with_existing_id existing db))
              (with_existing_id existing db) w1 Hf1) as (rs & w' & Hrun & Hok & Hf' & Hl').
  { unfold first_write, with_existing_id, existing. cbn [data].
    destruct (stored user q w) as [|r0 rest] eqn:Hs; [right | left; reflexivity].
    split; [reflexivity|]. rewrite Hl1, Hid0. apply Hfresh. reflexivity. }
  assert (Hemail : DbRow.user_email (with_existing_id existing db) = user).
  { unfold with_existing_id. destruct (data existing); exact Huser0. }
  rewrite Hemail in Hrun.
  exists w'.
  destruct (execute (first_write existing (with_existing_id existing db)) w1)
    as [result w2].
  rewrite Hrun, Hok. repeat split; [exact Hf'|].
  rewrite Hl', Hl1. unfold with_existing_id, existing. cbn [data].
  destruct (stored user q w) as [|r0 rest] eqn:Hs.
  - apply merge_row_fresh. rewrite Hid0. apply Hfresh. reflexivity.
  - apply merge_row_existing. simpl.
    apply filter_head_in in Hs as [Hin _]. apply in_map. exact Hin.
Qed.

(** C1: in a store that answers, whose private table has distinct ids
    and at most one row for the owner and the normalized question (and,
    when it has none, no row under the fresh deterministic id), two calls
    of [save_pattern] for that owner and question both succeed and leave
    exactly one row for the pair, whatever the two intents, so for equal
    intents in particular.  After the second call that row holds
    the second call's values under the id the row had after the first
    call; that id is the id of the row found at the start when there was
    one, and the second call leaves the table's ids as they were. *)
Theorem save_pattern_twice_one_row
  (first second : Pattern.t) (user : string) (w : World) :
  truthy user = true ->
  faults w = [] ->
  List.NoDup (map DbRow.id (learned_patterns w)) ->
  normalize (Pattern.questionPattern second) = normalize (Pattern.questionPattern first) ->
  let q := normalize (Pattern.questionPattern first) in
  length (stored user q w) <= 1 ->
  (stored user q w = [] ->
   ~ In (pattern_id user q (Pattern.intent first)) (map DbRow.id (learned_patterns w))) ->
  exists w1 w2 r1 r2,
    save_pattern isoformat_now first (Some user) w = (true, w1) /\
    save_pattern isoformat_now second (Some user) w1 = (true, w2) /\
    stored user q w1 = [r1] /\
    stored user q w2 = [r2] /\
    r2 = DbRow.set_id (DbRow.id r1) (fst (build_db_data isoformat_now second user w1)) /\
    DbRow.intent r2 = Pattern.intent second /\
    DbRow.confidence r2 = Pattern.confidence second /\
    DbRow.answer_mappings r2 = Pattern.answerMappings second /\
    DbRow.id r1 =
      match stored user q w with
      | r0 :: _ => DbRow.id r0
      | [] => pattern_id user q (Pattern.intent first)
      end /\
    map DbRow.id (learned_patterns w2) = map DbRow.id (learned_patterns w1).
Proof.
  intros Huser Hfaults Hnodup Hsameq q Hone Hfresh.
  destruct (save_pattern_healthy first user w Huser Hfaults Hfresh)
    as (w1 & Hrun1 & Hf1 & Hl1).
  fold q in Hl1.
  pose proof (build_db_data_key first user w) as (Hkey1 & Hid1).
  fold q in Hkey1, Hid1.
  set (db1 := fst (build_db_data isoformat_now first user w)) in *.
  (* the table after the first call *)
  assert (Hafter1 :
    exists r1,
      stored user q w1 = [r1] /\
      List.NoDup (map DbRow.id (learned_patterns w1)) /\
      DbRow.id r1 = match stored user q w with
                    | r0 :: _ => DbRow.id r0
                    | [] => pattern_id user q (Pattern.intent first)
                    end).
  { unfold stored in Hone, Hfresh, Hl1 |- *. rewrite Hl1.
    destruct (List.filter (keyed user q) (learned_patterns w)) as [|r0 rest] eqn:Hs.
    - exists db1. repeat split.
      + apply filter_append_row; assumption.
      + rewrite map_app. simpl. apply List.NoDup_app.
        * exact Hnodup.
        * apply List.NoDup_cons; [intros [] | apply List.NoDup_nil].
        * intros x Hx [Hy|[]]. subst x. rewrite Hid1 in Hx. apply Hfresh; auto.
      + exact Hid1.
    - destruct rest as [|]; [|simpl in Hone; lia].
      exists (DbRow.set_id (DbRow.id r0) db1). repeat split.
      + apply (filter_replace_row _ r0); auto.
      + rewrite replace_row_ids. exact Hnodup. }
  destruct Hafter1 as (r1 & Hs1 & Hnodup1 & Hr1).
  (* the second call finds that row *)
  assert (Hfresh2 :
    stored user (normalize (Pattern.questionPattern second)) w1 = [] ->
    ~ In (pattern_id user (normalize (Pattern.questionPattern second))
                    (Pattern.intent second))
         (map DbRow.id (learned_patterns w1))).
  { rewrite Hsameq. fold q. rewrite Hs1. discriminate. }
  destruct (save_pattern_healthy second user w1 Huser Hf1 Hfresh2)
    as (w2 & Hrun2 & _ & Hl2).
  rewrite Hsameq in Hl2. fold q in Hl2. rewrite Hs1 in Hl2.
  pose proof (build_db_data_key second user w1) as (Hkey2 & _).
  rewrite Hsameq in Hkey2. fold q in Hkey2.
  set (db2 := fst (build_db_data isoformat_now second user w1)) in *.
  exists w1, w2, r1, (DbRow.set_id (DbRow.id r1) db2).
  repeat split; try assumption.
  - unfold stored at 1. rewrite Hl2.
    apply (filter_replace_row _ r1); auto.
  - unfold db2, build_db_data. simpl.
    destruct (truthy_opt (Pattern.createdAt second)); reflexivity.
  - unfold db2, build_db_data. simpl.
    destruct (truthy_opt (Pattern.createdAt second)); reflexivity.
  - unfold db2, build_db_data. simpl.
    destruct (truthy_opt (Pattern.createdAt second)); reflexivity.
  - rewrite Hl2. apply replace_row_ids.
Qed.


(** A private pattern needs an owner: without an email, or with an
    empty one, [save_pattern] reports failure and sends nothing. *)
Theorem save_pattern_requires_owner (pattern : Pattern.t) (w : World) :
  save_pattern isoformat_now pattern None w = (false, w) /\
  save_pattern isoformat_now pattern (Some "") w = (false, w).
Proof. split; reflexivity. Qed.

End GatewayProperties.

(** ** Invariants the store gateway keeps *)

Section TableInvariants.

Variable isoformat_now : nat -> string.

Lemma normalize_fixed s : normalize (normalize s) = normalize s.
Proof.
  unfold normalize. rewrite lower_strip, lower_idempotent. apply strip_idempotent.
Qed.

(** A round trip leaves the private table alone or, when it is a write
    that is answered without error, merges its row. *)
Lemma execute_learned rq w rs w' :
  execute rq w = (rs, w') ->
  learned_patterns w' = learned_patterns w \/
  (error rs = None /\
   exists r, (rq = InsertLearned r \/ exists oc, rq = UpsertLearned r oc) /\
             learned_patterns w' = merge_row r (learned_patterns w)).
Proof.
  unfold execute.
  destruct (faults w) as [|[err|] rest] eqn:Hf;
    try (intros H; inversion H; subst; left; reflexivity);
    destruct rq; simpl; intros H;
    try (inversion H; subst; left; reflexivity).
  all: try (destruct (existsb (has_id (DbRow.id r)) (learned_patterns w)) eqn:Hex;
            [inversion H; subst; left; reflexivity|]).
  all: destruct (has_profile (DbRow.user_email r) (user_profiles w));
    inversion H; subst; simpl; [right | left; reflexivity].
  all: split; [reflexivity|]; exists r; split; eauto.
  all: unfold merge_row; rewrite ?Hex; reflexivity.
Qed.

Lemma fk_violation_has_error rs : fk_violation rs = true -> error rs <> None.
Proof. unfold fk_violation. destruct (error rs); [discriminate | discriminate]. Qed.

Lemma save_user_profile_learned user d w :
  learned_patterns (snd (save_user_profile isoformat_now user d w)) = learned_patterns w.
Proof.
  unfold save_user_profile, execute. simpl.
  destruct (faults w) as [|[err|] rest]; reflexivity.
Qed.

Lemma lookup_answered user q w :
  next_fault w = None ->
  data (fst (execute (GetLearnedIds user q) w)) = stored user q w.
Proof. intros H. rewrite (execute_served _ _ H). reflexivity. Qed.

(** What one call does to the private table: nothing, or the merge of
    the row it prepared. *)
Lemma save_pattern_learned pattern user w :
  truthy user = true ->
  let q := normalize (Pattern.questionPattern pattern) in
  let db0 := fst (build_db_data isoformat_now pattern user w) in
  exists existing,
    (next_fault w = None -> data existing = stored user q w) /\
    let w' := snd (save_pattern isoformat_now pattern (Some user) w) in
    learned_patterns w' = learned_patterns w \/
    learned_patterns w' = merge_row (with_existing_id existing db0) (learned_patterns w).
Proof.
  intros Huser q db0.
  unfold save_pattern. cbn [truthy_opt negb default]. rewrite Huser. cbn [negb]. unfold id.
  pose proof (build_db_data_tables isoformat_now pattern user w) as (Hf0 & Hl0 & _).
  pose proof (build_db_data_trace isoformat_now pattern user w) as Hq0.
  destruct (build_db_data isoformat_now pattern user w) as [db w0] eqn:Hbuild.
  specialize (Hq0 _ _ eq_refl) as (_ & _ & Hq0).
  cbn [fst snd] in *. subst db0. rewrite Hq0. fold q.
  pose proof (lookup_answered user q w0) as Hlook.
  destruct (execute (GetLearnedIds user q) w0) as [existing w1] eqn:Hexec.
  assert (Hl1 : learned_patterns w1 = learned_patterns w).
  { apply execute_learned in Hexec as [H | (_ & r & [H | [oc H]] & _)];
      [congruence | discriminate | discriminate]. }
  exists existing. split.
  { intros Hfault. cbn [fst] in Hlook. unfold stored in *. rewrite <- Hl0.
    apply Hlook. unfold next_fault in *. rewrite Hf0. exact Hfault. }
  set (row := with_existing_id existing db).
  destruct (execute (first_write existing row) w1) as [result w2] eqn:Hwrite.
  apply execute_learned in Hwrite.
  assert (Hrow : forall r, (first_write existing row = InsertLearned r \/
                            exists oc, first_write existing row = UpsertLearned r oc) ->
                           r = row).
  { unfold first_write. intros r [H | [oc H]]; destruct (data existing);
      inversion H; reflexivity. }
  unfold self_heal.
  destruct (fk_violation result) eqn:Hfk.
  - pose proof (save_user_profile_learned user (stub_profile user) w2) as Hl3.
    destruct (save_user_profile isoformat_now user (stub_profile user) w2) as [ok w3].
    cbn [snd] in Hl3.
    destruct (execute (UpsertLearned row (Some "id")) w3) as [retry w4] eqn:Hretry.
    apply execute_learned in Hretry.
    assert (Hl2 : learned_patterns w2 = learned_patterns w).
    { destruct Hwrite as [H | (Herr & _)]; [congruence|].
      apply fk_violation_has_error in Hfk. contradiction. }
    assert (Hl4 : learned_patterns w4 = learned_patterns w \/
                  learned_patterns w4 = merge_row row (learned_patterns w)).
    { destruct Hretry as [H | (_ & r & Hr & H)]; [left; congruence|].
      right. destruct Hr as [Hr | [oc Hr]]; inversion Hr; subst. congruence. }
    destruct (failed retry); exact Hl4.
  - assert (Hl2 : learned_patterns w2 = learned_patterns w \/
                  learned_patterns w2 = merge_row row (learned_patterns w)).
    { destruct Hwrite as [H | (_ & r & Hr & H)]; [left; congruence|].
      right. rewrite (Hrow r Hr) in H. congruence. }
    destruct (failed result); exact Hl2.
Qed.

Lemma in_replace_row x r rows :
  In x (replace_row r rows) -> x = r \/ In x rows.
Proof.
  induction rows as [|y rows IH]; simpl; [intros []|].
  destruct (has_id (DbRow.id r) y); simpl; intros [H | H]; auto.
  destruct (IH H); auto.
Qed.

Lemma in_merge_row x r rows :
  In x (merge_row r rows) -> x = r \/ In x rows.
Proof.
  unfold merge_row. destruct (existsb _ rows).
  - apply in_replace_row.
  - rewrite in_app_iff. simpl. intros [H | [H | []]]; auto.
Qed.

Lemma filter_replace_row_other (f : DbRow.t -> bool) (r : DbRow.t) (rows : list DbRow.t) :
  f r = false ->
  length (List.filter f (replace_row r rows)) <= length (List.filter f rows).
Proof.
  intros Hr. induction rows as [|x rows IH]; simpl; [lia|].
  destruct (has_id (DbRow.id r) x); simpl.
  - rewrite Hr. destruct (f x); simpl; lia.
  - destruct (f x); simpl; lia.
Qed.

Lemma filter_replace_row_none (f : DbRow.t -> bool) (r : DbRow.t) (rows : list DbRow.t) :
  List.filter f rows = [] ->
  length (List.filter f (replace_row r rows)) <= 1.
Proof.
  induction rows as [|x rows IH]; simpl; [lia|].
  destruct (f x) eqn:Hx; [discriminate|]. intros Hrows.
  destruct (has_id (DbRow.id r) x); simpl.
  - rewrite Hrows. destruct (f r); simpl; lia.
  - rewrite Hx. apply IH. exact Hrows.
Qed.

Lemma keyed_inj user q user' q' r :
  keyed user q r = true -> keyed user' q' r = true -> user' = user /\ q' = q.
Proof.
  unfold keyed, owned_by, has_question.
  intros H H'. apply andb_prop in H as [H1 H2]. apply andb_prop in H' as [H1' H2'].
  apply String.eqb_eq in H1, H2, H1', H2'. split; congruence.
Qed.

(** Merging a row keeps the key invariants, when the row comes under
    the id of the row stored for its key, if there is one. *)
Lemma merge_row_keeps_invariants rows db user q :
  distinct_ids rows ->
  one_row_per_key rows ->
  keyed user q db = true ->
  match List.filter (keyed user q) rows with
  | r0 :: _ => DbRow.id db = DbRow.id r0
  | [] => True
  end ->
  distinct_ids (merge_row db rows) /\ one_row_per_key (merge_row db rows).
Proof.
  intros Hids Hkeys Hkey Hfound. unfold merge_row, distinct_ids, one_row_per_key in *.
  destruct (existsb (has_id (DbRow.id db)) rows) eqn:Hex.
  - split; [rewrite replace_row_ids; exact Hids|].
    intros user' q'. destruct (keyed user' q' db) eqn:Hk'.
    + destruct (keyed_inj _ _ _ _ _ Hkey Hk') as [-> ->].
      pose proof (Hkeys user q) as Hone.
      destruct (List.filter (keyed user q) rows) as [|r0 rest] eqn:Hs.
      * apply filter_replace_row_none. exact Hs.
      * destruct rest; [|simpl in Hone; lia].
        rewrite (filter_replace_row _ r0 db rows Hids Hs Hfound Hkey).
        simpl. lia.
    + etransitivity; [apply filter_replace_row_other; exact Hk' | apply Hkeys].
  - assert (Hfresh : ~ In (DbRow.id db) (map DbRow.id rows)).
    { intros Hin. apply existsb_has_id in Hin. congruence. }
    split.
    + rewrite map_app. simpl. apply List.NoDup_app; [exact Hids| |].
      * apply List.NoDup_cons; [intros [] | apply List.NoDup_nil].
      * intros x Hx [<- | []]. contradiction.
    + intros user' q'. rewrite List.filter_app, length_app. simpl.
      destruct (keyed user' q' db) eqn:Hk'; simpl; [|pose proof (Hkeys user' q'); lia].
      destruct (keyed_inj _ _ _ _ _ Hkey Hk') as [-> ->].
      destruct (List.filter (keyed user q) rows) as [|r0 rest] eqn:Hs; [simpl; lia|].
      exfalso. apply Hfresh. rewrite Hfound.
      apply in_map. apply (filter_head_in (keyed user q) r0 rest rows Hs).
Qed.

(** Whenever its lookup is answered, [save_pattern] keeps the primary
    key and leaves at most one row per owner and question text, whatever
    the later round trips of the call do. *)
Theorem save_pattern_keeps_one_row_per_key
  (pattern : Pattern.t) (user_email : option string) (w : World) :
  next_fault w = None ->
  distinct_ids (learned_patterns w) ->
  one_row_per_key (learned_patterns w) ->
  let w' := snd (save_pattern isoformat_now pattern user_email w) in
  distinct_ids (learned_patterns w') /\ one_row_per_key (learned_patterns w').
Proof.
  intros Hfault Hids Hkeys.
  destruct (truthy_opt user_email) eqn:Huser.
  2:{ unfold save_pattern. rewrite Huser. simpl. auto. }
  destruct user_email as [user|]; [|discriminate]. simpl in Huser.
  destruct (save_pattern_learned pattern user w Huser) as (existing & Hdata & Hcases).
  specialize (Hdata Hfault). cbv zeta in *.
  destruct Hcases as [-> | ->]; [auto|].
  pose proof (build_db_data_key isoformat_now pattern user w) as (Hkey0 & _).
  set (q := normalize (Pattern.questionPattern pattern)) in *.
  set (db0 := fst (build_db_data isoformat_now pattern user w)) in *.
  apply (merge_row_keeps_invariants _ _ user q Hids Hkeys).
  - unfold with_existing_id. destruct (data existing); exact Hkey0.
  - unfold with_existing_id. rewrite Hdata. unfold stored.
    destruct (List.filter (keyed user q) (learned_patterns w)); [exact I | reflexivity].
Qed.

(** [save_pattern] never stores a question text that is not in normal
    form, whatever the store answers. *)
Theorem save_pattern_keeps_questions_normalized
  (pattern : Pattern.t) (user_email : option string) (w : World) :
  normalized_rows (learned_patterns w) ->
  normalized_rows (learned_patterns (snd (save_pattern isoformat_now pattern user_email w))).
Proof.
  intros Hnorm.
  destruct (truthy_opt user_email) eqn:Huser.
  2:{ unfold save_pattern. rewrite Huser. simpl. exact Hnorm. }
  destruct user_email as [user|]; [|discriminate]. simpl in Huser.
  destruct (save_pattern_learned pattern user w Huser) as (existing & _ & Hcases).
  cbv zeta in Hcases. destruct Hcases as [-> | ->]; [exact Hnorm|].
  unfold normalized_rows in *. apply List.Forall_forall. intros x Hx.
  apply in_merge_row in Hx as [-> | Hx].
  - pose proof (build_db_data_trace isoformat_now pattern user w) as Hq.
    destruct (build_db_data isoformat_now pattern user w) as [db w0].
    specialize (Hq _ _ eq_refl) as (_ & _ & Hq). cbn [fst].
    unfold with_existing_id. destruct (data existing); simpl; rewrite Hq;
      apply normalize_fixed.
  - rewrite List.Forall_forall in Hnorm. apply Hnorm. exact Hx.
Qed.

End TableInvariants.

(** ** Saving and finding again *)

Section RoundTrip.

Variable config : Config.
Variable isoformat_now : nat -> string.

Lemma search_pattern_private_result question user w m :
  truthy user = true ->
  next_fault w = None ->
  search_private (normalize question)
                 (List.filter (owned_by user) (learned_patterns w)) = Some m ->
  fst (search_pattern config question (Some user) w) = Some m.
Proof.
  intros Huser Hfault Hhit. unfold search_pattern.
  cbn [truthy_opt default]. unfold id. rewrite Huser.
  rewrite (execute_served _ _ Hfault). cbn [serve fst snd pop_fault learned_patterns].
  cbn [failed error truthy_opt negb data]. rewrite Hhit. reflexivity.
Qed.

(** The table after a call in a store that answers holds one row for
    the key: the row of the call. *)
Lemma stored_after_save pattern user w w' :
  distinct_ids (learned_patterns w) ->
  one_row_per_key (learned_patterns w) ->
  let q := normalize (Pattern.questionPattern pattern) in
  let db0 := fst (build_db_data isoformat_now pattern user w) in
  (stored user q w = [] ->
   ~ In (pattern_id user q (Pattern.intent pattern)) (map DbRow.id (learned_patterns w))) ->
  learned_patterns w' =
    match stored user q w with
    | r0 :: _ => replace_row (DbRow.set_id (DbRow.id r0) db0) (learned_patterns w)
    | [] => learned_patterns w ++ [db0]
    end ->
  exists row,
    stored user q w' = [row] /\
    DbRow.question_pattern row = q /\
    DbRow.intent row = Pattern.intent pattern /\
    DbRow.answer_mappings row = Pattern.answerMappings pattern /\
    forall x, In x (learned_patterns w') -> x = row \/ In x (learned_patterns w).
Proof.
  intros Hids Hkeys q db0 Hfresh Hl.
  pose proof (build_db_data_key isoformat_now pattern user w) as (Hkey & Hid).
  pose proof (build_db_data_trace isoformat_now pattern user w) as Hq.
  fold q in Hkey, Hid. fold db0 in Hkey, Hid.
  assert (Hfields : DbRow.question_pattern db0 = q /\
                    DbRow.intent db0 = Pattern.intent pattern /\
                    DbRow.answer_mappings db0 = Pattern.answerMappings pattern).
  { unfold db0, build_db_data. simpl.
    destruct (truthy_opt (Pattern.createdAt pattern)); repeat split. }
  destruct Hfields as (Hf1 & Hf2 & Hf3).
  pose proof (Hkeys user q) as Hone.
  unfold stored in *. rewrite Hl.
  destruct (List.filter (keyed user q) (learned_patterns w)) as [|r0 rest] eqn:Hs.
  - exists db0. split; [apply filter_append_row; assumption|].
    repeat split; try assumption.
    intros x Hx. apply in_app_iff in Hx as [Hx | [<- | []]]; auto.
  - destruct rest; [|simpl in Hone; lia].
    exists (DbRow.set_id (DbRow.id r0) db0).
    split; [apply (filter_replace_row _ r0); auto|].
    repeat split; try assumption.
    intros x Hx. apply in_replace_row in Hx. exact Hx.
Qed.

(** A pattern saved for an owner in a store that answers is the match
    [search_pattern] gives that owner for every spelling of its question. *)
Lemma saved_pattern_recalled pattern user w :
  truthy user = true ->
  faults w = [] ->
  distinct_ids (learned_patterns w) ->
  one_row_per_key (learned_patterns w) ->
  normalized_rows (learned_patterns w) ->
  let q := normalize (Pattern.questionPattern pattern) in
  (stored user q w = [] ->
   ~ In (pattern_id user q (Pattern.intent pattern)) (map DbRow.id (learned_patterns w))) ->
  exists w' row,
    save_pattern isoformat_now pattern (Some user) w = (true, w') /\
    DbRow.question_pattern row = q /\
    DbRow.intent row = Pattern.intent pattern /\
    DbRow.answer_mappings row = Pattern.answerMappings pattern /\
    forall question,
      normalize question = q ->
      fst (search_pattern config question (Some user) w') = Some (to_match row).
Proof.
  intros Huser Hfaults Hids Hkeys Hnorm q Hfresh.
  destruct (save_pattern_healthy isoformat_now pattern user w Huser Hfaults Hfresh)
    as (w' & Hrun & Hf' & Hl').
  destruct (stored_after_save pattern user w w' Hids Hkeys Hfresh Hl')
    as (row & Hstored & Hq & Hi & Ha & Hrows).
  fold q in Hstored, Hq.
  exists w', row. repeat split; try assumption.
  intros question Hquestion.
  assert (Hfault' : next_fault w' = None) by (unfold next_fault; rewrite Hf'; reflexivity).
  assert (Hrow_in : In row (List.filter (keyed user q) (learned_patterns w'))).
  { unfold stored in Hstored. rewrite Hstored. left. reflexivity. }
  apply filter_In in Hrow_in as [Hrow_in Hrow_key].
  assert (Hrow_owned : owned_by user row = true).
  { unfold keyed in Hrow_key. apply andb_prop in Hrow_key as [H _]. exact H. }
  assert (Hrow_exact : exact_match (normalize question) row = true).
  { unfold exact_match. rewrite Hq, Hquestion. unfold q.
    rewrite normalize_fixed. apply String.eqb_refl. }
  destruct (search_private_hit (normalize question)
              (List.filter (owned_by user) (learned_patterns w')) row)
    as (r' & Hhit & Hin' & Hexact').
  { apply list_elem_of_In, filter_In. split; assumption. }
  { exact Hrow_exact. }
  apply list_elem_of_In, filter_In in Hin' as [Hin' Hown'].
  assert (Hr' : r' = row).
  { assert (Hkeyed : keyed user q r' = true).
    { unfold keyed. rewrite Hown'. simpl. unfold has_question.
      apply String.eqb_eq. unfold exact_match in Hexact'.
      apply String.eqb_eq in Hexact'. rewrite Hquestion in Hexact'.
      destruct (Hrows r' Hin') as [-> | Hold]; [exact Hq|].
      unfold normalized_rows in Hnorm. rewrite List.Forall_forall in Hnorm.
      rewrite <- (Hnorm r' Hold). exact Hexact'. }
    assert (Hin_stored : In r' (stored user q w')).
    { unfold stored. apply filter_In. split; assumption. }
    rewrite Hstored in Hin_stored. destruct Hin_stored as [H | []]. symmetry. exact H. }
  subst r'.
  apply (search_pattern_private_result question user w' _ Huser Hfault' Hhit).
Qed.

(** Upload, then search.  The owner's email is not empty; the store
    answers every request; the private table has distinct ids, at most
    one row for an owner and a question text, and question texts in
    normal form only; and when it has no row for the owner and the
    question, it has no row under the deterministic id of the upload.
    Then the upload is accepted whatever its confidence, and the matcher
    returns to that owner, for every spelling of the question with the
    same normal form, a match with the uploaded answer mappings and
    intent under the question in normal form. *)
Theorem uploaded_pattern_is_found (pattern : Pattern.t) (user : string) (w : World) :
  truthy user = true ->
  faults w = [] ->
  distinct_ids (learned_patterns w) ->
  one_row_per_key (learned_patterns w) ->
  normalized_rows (learned_patterns w) ->
  (stored user (normalize (Pattern.questionPattern pattern)) w = [] ->
   ~ In (pattern_id user (normalize (Pattern.questionPattern pattern))
                   (Pattern.intent pattern))
        (map DbRow.id (learned_patterns w))) ->
  exists w' m,
    upload_pattern isoformat_now pattern (Some user) w
      = (Uploaded "Pattern uploaded successfully", w') /\
    MemoryMatch.answerMappings m = Pattern.answerMappings pattern /\
    MemoryMatch.intent m = Pattern.intent pattern /\
    MemoryMatch.questionPattern m = normalize (Pattern.questionPattern pattern) /\
    forall question,
      normalize question = normalize (Pattern.questionPattern pattern) ->
      fst (search_pattern config question (Some user) w') = Some m.
Proof.
  intros Huser Hfaults Hids Hkeys Hnorm Hfresh.
  destruct (saved_pattern_recalled pattern user w Huser Hfaults Hids Hkeys Hnorm Hfresh)
    as (w' & row & Hrun & Hq & Hi & Ha & Hfind).
  exists w', (to_match row). unfold upload_pattern. rewrite Hrun.
  repeat split; try assumption.
Qed.

(** Upload, then listing, under the conditions of the round trip above:
    a non-empty owner email, a store that answers every request, a
    private table with distinct ids, at most one row for an owner and a
    question text and question texts in normal form only, and no row
    under the deterministic id of the upload when the owner has no row for
    the question.  Then the upload is accepted and the owner's listing
    holds a row with the uploaded answer mappings under the question in
    normal form; every listed row is the owner's and its question text is
    in normal form, so a question uploaded in another spelling is not
    listed as it was written. *)
Theorem uploaded_pattern_is_listed_normalized
  (pattern : Pattern.t) (user : string) (w : World) :
  truthy user = true ->
  faults w = [] ->
  distinct_ids (learned_patterns w) ->
  one_row_per_key (learned_patterns w) ->
  normalized_rows (learned_patterns w) ->
  (stored user (normalize (Pattern.questionPattern pattern)) w = [] ->
   ~ In (pattern_id user (normalize (Pattern.questionPattern pattern))
                   (Pattern.intent pattern))
        (map DbRow.id (learned_patterns w))) ->
  exists w' row,
    upload_pattern isoformat_now pattern (Some user) w
      = (Uploaded "Pattern uploaded successfully", w') /\
    In row (fst (get_user_patterns user w')) /\
    DbRow.question_pattern row = normalize (Pattern.questionPattern pattern) /\
    DbRow.answer_mappings row = Pattern.answerMappings pattern /\
    (forall x, In x (fst (get_user_patterns user w')) ->
               DbRow.user_email x = user /\
               normalize (DbRow.question_pattern x) = DbRow.question_pattern x) /\
    (Pattern.questionPattern pattern <> normalize (Pattern.questionPattern pattern) ->
     forall x, In x (fst (get_user_patterns user w')) ->
               DbRow.question_pattern x <> Pattern.questionPattern pattern).
Proof.
  intros Huser Hfaults Hids Hkeys Hnorm Hfresh.
  destruct (save_pattern_healthy isoformat_now pattern user w Huser Hfaults Hfresh)
    as (w' & Hrun & Hf' & Hl').
  destruct (stored_after_save pattern user w w' Hids Hkeys Hfresh Hl')
    as (row & Hstored & Hq & Hi & Ha & Hrows).
  assert (Hlist : fst (get_user_patterns user w')
                  = List.filter (owned_by user) (learned_patterns w')).
  { unfold get_user_patterns. rewrite (execute_healthy _ _ Hf'). reflexivity. }
  assert (Hall : forall x, In x (fst (get_user_patterns user w')) ->
                 DbRow.user_email x = user /\
                 normalize (DbRow.question_pattern x) = DbRow.question_pattern x).
  { intros x Hx. rewrite Hlist in Hx. apply filter_In in Hx as [Hx Hown].
    split; [apply String.eqb_eq; exact Hown|].
    destruct (Hrows x Hx) as [-> | Hold].
    - rewrite Hq. apply normalize_fixed.
    - unfold normalized_rows in Hnorm. rewrite List.Forall_forall in Hnorm.
      apply Hnorm. exact Hold. }
  exists w', row. unfold upload_pattern. rewrite Hrun.
  split; [reflexivity|]. split.
  { rewrite Hlist. apply filter_In.
    assert (Hin : In row (stored user (normalize (Pattern.questionPattern pattern)) w'))
      by (rewrite Hstored; left; reflexivity).
    unfold stored in Hin. apply filter_In in Hin as [Hin Hkey].
    split; [exact Hin|]. unfold keyed in Hkey. apply andb_prop in Hkey as [H _]. exact H. }
  split; [exact Hq|]. split; [exact Ha|]. split; [exact Hall|].
  intros Hspelled x Hx Heq. apply Hspelled.
  destruct (Hall x Hx) as [_ Hx_norm]. rewrite <- Heq. symmetry. exact Hx_norm.
Qed.

End RoundTrip.

(** ** More on the [/predict] handler and the endpoints *)

Section HandlerProperties.

Variable config : Config.
Variable isoformat_now : nat -> string.
Variable predict_answer : AIRequest.t -> outcome AIResponse.t.

Lemma search_pattern_global_only question w :
  next_fault w = None ->
  search_pattern config question None w =
  (search_global config (normalize question) (global_patterns w),
   log GetGlobal (mkResponse (global_patterns w) None) (pop_fault w)).
Proof.
  intros Hfault. unfold search_pattern, read_patterns. cbn [truthy_opt].
  rewrite (execute_served _ _ Hfault). reflexivity.
Qed.

(** When the first global row that qualifies for the question carries
    an answer, the handler returns that answer, the configured memory
    confidence and the row's intent for every model and every write-back:
    neither is called, the tables stay as they were and the global read
    is the only request. *)
Theorem predict_answers_from_memory
  (save : Pattern.t -> option string -> World -> outcome bool * World)
  (request : AIRequest.t) (w : World) (m : MemoryMatch.t) :
  next_fault w = None ->
  search_global config (normalize (AIRequest.question request)) (global_patterns w)
    = Some m ->
  truthy (extract_answer m) = true ->
  exists w',
    predict_with config predict_answer save request w =
      (Returned (AIResponse.mk (extract_answer m) (PATTERN_MEMORY_CONFIDENCE config)
                               "Retrieved from Pattern Memory"
                               (Some (MemoryMatch.intent m))), w') /\
    same_tables w w' /\
    new_events w w' = [(GetGlobal, mkResponse (global_patterns w) None)].
Proof.
  intros Hfault Hfound Hanswer. eexists. unfold predict_with.
  rewrite (search_pattern_global_only _ _ Hfault), Hfound, Hanswer.
  split; [reflexivity|]. split.
  - repeat split.
  - apply new_events_log. reflexivity.
Qed.

(** What the handler learns for an owner, the matcher recalls for that
    owner.  The request carries a non-empty owner email; the store answers
    every request; the private table has distinct ids, at most one row for
    an owner and a question text, and question texts in normal form only;
    no global row qualifies for the question; the model returns an answer
    that clears the gate; and when the private table has no row for the
    owner and the question, it has no row under the deterministic id of
    the learned pattern.  Then the handler returns the model's answer and
    [search_pattern] with the owner's email returns that answer for the
    question on the store the handler leaves. *)
Theorem predict_learns_what_owner_recalls
  (request : AIRequest.t) (user : string) (w : World) (ai : AIResponse.t) :
  AIRequest.userEmail request = Some user ->
  truthy user = true ->
  faults w = [] ->
  distinct_ids (learned_patterns w) ->
  one_row_per_key (learned_patterns w) ->
  normalized_rows (learned_patterns w) ->
  let q := normalize (AIRequest.question request) in
  memory_miss (search_global config q (global_patterns w)) = true ->
  predict_answer request = Returned ai ->
  learn_gate (ensure_intent ai) = true ->
  (stored user q w = [] ->
   ~ In (pattern_id user q (default "" (AIResponse.intent (ensure_intent ai))))
        (map DbRow.id (learned_patterns w))) ->
  exists w',
    predict config isoformat_now predict_answer request w
      = (Returned (ensure_intent ai), w') /\
    option_map extract_answer
               (fst (search_pattern config (AIRequest.question request) (Some user) w'))
      = Some (AIResponse.answer ai).
Proof.
  intros Hemail Huser Hfaults Hids Hkeys Hnorm q Hmiss Hai Hgate Hfresh.
  assert (Hfault : next_fault w = None) by (unfold next_fault; rewrite Hfaults; reflexivity).
  pose proof (search_pattern_global_only (AIRequest.question request) w Hfault) as Hsearch.
  fold q in Hsearch.
  set (w1 := log GetGlobal (mkResponse (global_patterns w) None) (pop_fault w)) in *.
  set (fresh := ensure_intent ai) in *.
  set (pattern := learned_pattern request fresh).
  assert (Hq : normalize (Pattern.questionPattern pattern) = q).
  { unfold pattern, learned_pattern. cbn [Pattern.questionPattern]. apply normalize_fixed. }
  destruct (saved_pattern_recalled config isoformat_now pattern user w1 Huser)
    as (w' & row & Hrun & _ & _ & Ha & Hfind).
  { unfold w1. simpl. rewrite Hfaults. reflexivity. }
  { exact Hids. }
  { exact Hkeys. }
  { exact Hnorm. }
  { rewrite Hq. exact Hfresh. }
  exists w'. split.
  - unfold predict.
    rewrite (predict_with_miss config predict_answer _ request w _ w1 Hsearch Hmiss).
    unfold ai_fallback. rewrite Hai. fold fresh. rewrite Hgate, Hemail.
    unfold save_pattern_call. fold pattern. rewrite Hrun. reflexivity.
  - rewrite (Hfind (AIRequest.question request)) by (rewrite Hq; reflexivity).
    unfold extract_answer, to_match. cbn [option_map MemoryMatch.answerMappings].
    rewrite Ha. unfold pattern, learned_pattern. cbn.
    unfold fresh, ensure_intent. destruct (truthy_opt (AIResponse.intent ai)); reflexivity.
Qed.

Lemma search_global_complete question_lower rows r :
  In r rows ->
  qualifies config question_lower r = true ->
  exists r', search_global config question_lower rows = Some (to_match r') /\
             In r' rows /\ qualifies config question_lower r' = true.
Proof.
  induction rows as [|x rows IH]; intros Hin Hr; [destruct Hin|].
  rewrite search_global_cons.
  destruct (qualifies config question_lower x) eqn:Hx.
  - exists x. repeat split; [left; reflexivity | exact Hx].
  - destruct Hin as [-> | Hin]; [congruence|].
    destruct (IH Hin Hr) as (r' & Hs & Hin' & Hr').
    exists r'. repeat split; [exact Hs | right; exact Hin' | exact Hr'].
Qed.

(** The search endpoint refuses an empty query without a request to the
    store, whatever the store holds and answers; for any other query,
    when the read is answered and some global row equals the query after
    normalization, it returns exactly one match, a global row that
    matches exactly or by overlap. *)
Theorem search_patterns_finds_stored_question (w : World) :
  search_patterns config "" w = (Raised "400: Query parameter 'q' is required", w) /\
  forall (q : string) (r : DbRow.t),
    next_fault w = None ->
    truthy q = true ->
    In r (global_patterns w) ->
    exact_match (normalize q) r = true ->
    exists r' w',
      search_patterns config q w = (Returned [to_match r'], w') /\
      In r' (global_patterns w) /\
      qualifies config (normalize q) r' = true.
Proof.
  split; [reflexivity|].
  intros q r Hfault Hq Hin Hexact.
  destruct (search_global_complete (normalize q) (global_patterns w) r Hin)
    as (r' & Hs & Hin' & Hr').
  { unfold qualifies. rewrite Hexact. reflexivity. }
  exists r'. eexists. unfold search_patterns. rewrite Hq. cbn [negb].
  rewrite (search_pattern_global_only _ _ Hfault), Hs.
  repeat split; assumption.
Qed.

(** The sync endpoint and the statistics agree on the number of global
    patterns, whatever the store answers to each of them. *)
Theorem sync_total_agrees_with_stats (w : World) :
  snd (fst (sync_patterns w)) = totalGlobalPatterns (fst (pattern_stats w)) /\
  snd (fst (sync_patterns w)) = length (fst (fst (sync_patterns w))) /\
  (next_fault w = None -> fst (fst (sync_patterns w)) = global_patterns w).
Proof.
  unfold sync_patterns, pattern_stats, get_stats, read_patterns, execute, next_fault.
  destruct (faults w) as [|[err|] rest]; cbn.
  - repeat split.
  - destruct (truthy err); repeat split; discriminate.
  - repeat split.
Qed.


Lemma search_pattern_global_trace question w memory_match w1 :
  search_pattern config question None w = (memory_match, w1) ->
  same_tables w w1 /\ exists rs, trace w1 = trace w ++ [(GetGlobal, rs)].
Proof.
  unfold search_pattern, read_patterns. cbn [truthy_opt].
  pose proof (execute_read_same_tables GetGlobal w I) as Hsame.
  destruct (execute GetGlobal w) as [rs w0] eqn:Hexec.
  apply execute_trace in Hexec. cbn [snd] in Hsame.
  destruct (failed rs); intros H; inversion H; subst; split; eauto.
Qed.

(** A request without an owner email never writes: whatever the store
    holds and answers and whatever the model does, the handler sends the
    global read and nothing else, and the tables stay as they were. *)
Theorem predict_without_owner_never_writes (request : AIRequest.t) (w : World) :
  truthy_opt (AIRequest.userEmail request) = false ->
  let w' := snd (predict config isoformat_now predict_answer request w) in
  same_tables w w' /\ exists rs, new_events w w' = [(GetGlobal, rs)].
Proof.
  intros Hanonymous. cbv zeta. unfold predict, predict_with.
  destruct (search_pattern config (AIRequest.question request) None w)
    as [memory_match w1] eqn:Hsearch.
  apply search_pattern_global_trace in Hsearch as (Hsame & rs & Htrace).
  assert (Hdone : same_tables w w1 /\ exists rs, new_events w w1 = [(GetGlobal, rs)]).
  { split; [exact Hsame|]. exists rs. apply new_events_app. exact Htrace. }
  assert (Hfallback :
    snd (ai_fallback predict_answer (save_pattern_call isoformat_now) request w1) = w1).
  { unfold ai_fallback, save_pattern_call, save_pattern.
    destruct (predict_answer request) as [ai|e]; [|reflexivity].
    rewrite Hanonymous. destruct (learn_gate (ensure_intent ai)); reflexivity. }
  destruct memory_match as [m|].
  - destruct (truthy (extract_answer m)); [exact Hdone|].
    rewrite Hfallback. exact Hdone.
  - rewrite Hfallback. exact Hdone.
Qed.

(** When the memory has no answer and the model call raises, the handler
    raises the same error: no answer is made up, nothing is learned and
    the tables stay as they were. *)
Theorem predict_surfaces_model_failure
  (request : AIRequest.t) (w : World) (e : string) :
  memory_miss (fst (search_pattern config (AIRequest.question request) None w)) = true ->
  predict_answer request = Raised e ->
  fst (predict config isoformat_now predict_answer request w) = Raised e /\
  same_tables w (snd (predict config isoformat_now predict_answer request w)) /\
  exists rs, new_events w (snd (predict config isoformat_now predict_answer request w))
             = [(GetGlobal, rs)].
Proof.
  intros Hmiss Hraised.
  destruct (search_pattern config (AIRequest.question request) None w)
    as [memory_match w1] eqn:Hsearch.
  cbn [fst] in Hmiss. unfold predict.
  rewrite (predict_with_miss config predict_answer _ request w _ w1 Hsearch Hmiss).
  unfold ai_fallback. rewrite Hraised. cbn [fst snd].
  apply search_pattern_global_trace in Hsearch as (Hsame & rs & Htrace).
  split; [reflexivity|]. split; [exact Hsame|].
  exists rs. apply new_events_app. exact Htrace.
Qed.

End HandlerProperties.

(** ** Profiles *)

Section ProfileProperties.

Variable isoformat_now : nat -> string.

Lemma filter_merge_profile r rows :
  exists rest,
    List.filter (fun pr => String.eqb (email pr) (email r)) (merge_profile r rows)
    = r :: rest.
Proof.
  unfold merge_profile. destruct (has_profile (email r) rows) eqn:Hhas.
  - induction rows as [|x rows IH]; [discriminate|].
    simpl in Hhas |- *. destruct (String.eqb (email x) (email r)) eqn:Hx; simpl.
    + rewrite String.eqb_refl. eexists. reflexivity.
    + rewrite Hx. apply IH. exact Hhas.
  - exists []. rewrite List.filter_app. simpl. rewrite String.eqb_refl.
    assert (Hnone : List.filter (fun pr => String.eqb (email pr) (email r)) rows = []).
    { induction rows as [|x rows IH]; [reflexivity|].
      simpl in Hhas |- *. apply orb_false_iff in Hhas as [Hx Hrest].
      rewrite Hx. apply IH. exact Hrest. }
    rewrite Hnone. reflexivity.
Qed.

(** In a store that answers, the profile read back after a save is the
    saved data with the key [profile_data] unwrapped once by the save and
    once more by the read; data without that key comes back as saved. *)
Theorem saved_profile_is_read_back (user : string) (d : json) (w : World) :
  faults w = [] ->
  fst (get_user_profile user (snd (save_user_profile isoformat_now user d w)))
    = Some (unwrap_profile_data (unwrap_profile_data d)) /\
  (json_get "profile_data" d = None ->
   fst (get_user_profile user (snd (save_user_profile isoformat_now user d w)))
     = Some d).
Proof.
  intros Hfaults.
  assert (Hmain :
    fst (get_user_profile user (snd (save_user_profile isoformat_now user d w)))
    = Some (unwrap_profile_data (unwrap_profile_data d))).
  { unfold save_user_profile, get_user_profile, execute_profile_read, execute.
    cbn [datetime_now faults]. rewrite Hfaults. cbn.
    destruct (filter_merge_profile
                (mkProfileRow user (unwrap_profile_data d) (isoformat_now (clock w)))
                (user_profiles w)) as (rest & Hfilter).
    cbn [email] in Hfilter. unfold unwrap_profile_data in Hfilter at 1.
    rewrite Hfilter. reflexivity. }
  split; [exact Hmain|].
  intros Hkey. rewrite Hmain. unfold unwrap_profile_data. rewrite Hkey, Hkey. reflexivity.
Qed.

(** [save_user_profile] reports success whatever the store answers: when
    the write is refused the table stays as it was, and an owner without a
    profile still has none although the save returned [True]. *)
Theorem refused_profile_write_is_reported_saved
  (user : string) (d : json) (w : World) (err : string) :
  next_fault w = Some err ->
  let (ok, w') := save_user_profile isoformat_now user d w in
  ok = true /\
  user_profiles w' = user_profiles w /\
  (has_profile user (user_profiles w) = false ->
   get_user_data user w' = (Raised "404: Profile not found", pop_fault w')).
Proof.
  intros Hfault. unfold save_user_profile, execute, next_fault in *. cbn [datetime_now faults].
  destruct (faults w) as [|[e|] rest] eqn:Hf; try discriminate.
  cbn. split; [reflexivity|]. split; [reflexivity|].
  intros Hnone.
  assert (Hempty : List.filter (fun pr => String.eqb (email pr) user) (user_profiles w) = []).
  { clear -Hnone. induction (user_profiles w) as [|x rows IH]; [reflexivity|].
    simpl in Hnone |- *. apply orb_false_iff in Hnone as [Hx Hrest].
    rewrite Hx. apply IH. exact Hrest. }
  unfold get_user_data, get_user_profile, execute_profile_read. cbn.
  destruct rest as [|[e'|] rest']; cbn; rewrite ?Hempty; reflexivity.
Qed.

End ProfileProperties.

(** ** The shape of the matcher's test and of the ids *)

Section ShapeProperties.

Variable config : Config.

(** The fuzzy test is symmetric: a query matches a stored text exactly
    when the stored text, taken as the query, matches the query. *)
Theorem fuzzy_match_symmetric (a b : string) :
  fuzzy_match config a b = fuzzy_match config b a.
Proof.
  unfold fuzzy_match, similarity.
  rewrite (comm_L (∩) (words a) (words b)).
  rewrite (Nat.max_comm (size (words a)) (size (words b))).
  rewrite (andb_comm (0 <? size (words a))%nat). reflexivity.
Qed.

Lemma length_le_bytes n x : length (MD5.le_bytes n x) = n.
Proof. revert x. induction n as [|n IH]; intros x; simpl; [|rewrite IH]; reflexivity. Qed.

Lemma length_hex bs : String.length (MD5.hex bs) = 2 * length bs.
Proof. induction bs as [|b bs IH]; simpl; [reflexivity|]. rewrite IH. lia. Qed.

Lemma hex_digit_is_hex n : is_hex_digit (MD5.hex_digit n) = true.
Proof.
  unfold MD5.hex_digit. generalize (N.to_nat n) as k. intros k.
  destruct (Nat.lt_ge_cases k 16) as [Hlt | Hge].
  - do 16 (destruct k as [|k]; [reflexivity|]). lia.
  - rewrite nth_overflow by exact Hge. reflexivity.
Qed.

Lemma hex_all_hex bs :
  List.Forall (fun c => is_hex_digit c = true) (list_ascii_of_string (MD5.hex bs)).
Proof.
  induction bs as [|b bs IH]; simpl; [constructor|].
  constructor; [apply hex_digit_is_hex|]. constructor; [apply hex_digit_is_hex | exact IH].
Qed.

Lemma length_hexdigest s : String.length (MD5.hexdigest s) = 32.
Proof.
  unfold MD5.hexdigest, MD5.digest. rewrite length_hex.
  destruct (fold_left MD5.compress _ MD5.initial) as [[[a b] c] d].
  rewrite !length_app, !length_le_bytes. reflexivity.
Qed.

Lemma length_substring_prefix n s :
  n <= String.length s -> String.length (substring 0 n s) = n.
Proof.
  revert s. induction n as [|n IH]; intros s H.
  - destruct s; reflexivity.
  - destruct s as [|c s]; simpl in H; [lia|]. simpl. rewrite IH by lia. reflexivity.
Qed.

Lemma substring_prefix_all (P : ascii -> Prop) n s :
  List.Forall P (list_ascii_of_string s) ->
  List.Forall P (list_ascii_of_string (substring 0 n s)).
Proof.
  revert s. induction n as [|n IH]; intros s H.
  - destruct s; constructor.
  - destruct s as [|c s]; simpl; [constructor|].
    inversion H; subst. constructor; [assumption | apply IH; assumption].
Qed.

(** Every private pattern id is [pattern_] followed by exactly twelve
    lowercase hexadecimal digits, twenty characters in all, whatever the
    owner, the question and the intent. *)
Theorem pattern_id_format (user question intent : string) :
  exists token,
    pattern_id user question intent = "pattern_" +:+ token /\
    String.length token = 12 /\
    List.Forall (fun c => is_hex_digit c = true) (list_ascii_of_string token) /\
    String.length (pattern_id user question intent) = 20.
Proof.
  unfold pattern_id.
  set (digest := MD5.hexdigest (user +:+ ":" +:+ question +:+ ":" +:+ intent)).
  assert (Hlen : String.length (substring 0 12 digest) = 12).
  { apply length_substring_prefix. unfold digest. rewrite length_hexdigest. lia. }
  exists (substring 0 12 digest). split; [reflexivity|]. split; [exact Hlen|]. split.
  - apply substring_prefix_all. apply hex_all_hex.
  - generalize dependent (substring 0 12 digest). intros token Htoken.
    change (String.length ("pattern_" +:+ token)) with (8 + String.length token).
    rewrite Htoken. reflexivity.
Qed.

End ShapeProperties.

(** ** Properties of the statistics *)

Section StatsProperties.

Lemma sum_counts_insert_fresh (m : gmap string nat) i n :
  m !! i = None -> sum_counts (<[i:=n]> m) = n + sum_counts m.
Proof.
  intros H. unfold sum_counts.
  apply (map_fold_insert_L (fun _ n acc => n + acc)); [|exact H].
  intros. lia.
Qed.

Lemma sum_counts_count_intent m p :
  sum_counts (count_intent m p) = S (sum_counts m).
Proof.
  unfold count_intent.
  destruct (m !! DbRow.intent p) as [n|] eqn:E; simpl.
  - rewrite <- insert_delete_eq.
    rewrite sum_counts_insert_fresh by apply lookup_delete_eq.
    rewrite <- (insert_delete_id m (DbRow.intent p) n E) at 2.
    rewrite sum_counts_insert_fresh by apply lookup_delete_eq. lia.
  - rewrite sum_counts_insert_fresh by exact E. lia.
Qed.

Lemma sum_counts_fold rows m :
  sum_counts (fold_left count_intent rows m) = sum_counts m + length rows.
Proof.
  revert m. induction rows as [|p rows IH]; intros m; simpl; [lia|].
  rewrite IH, sum_counts_count_intent. lia.
Qed.

Lemma lookup_fold_count_intent rows (m : gmap string nat) i :
  fold_left count_intent rows m !! i =
  match m !! i, length (with_intent i rows) with
  | Some n, c => Some (n + c)
  | None, 0 => None
  | None, S c => Some (S c)
  end.
Proof.
  revert m. induction rows as [|p rows IH]; intros m; simpl.
  - destruct (m !! i); [f_equal; lia | reflexivity].
  - rewrite IH. unfold count_intent, with_intent. simpl.
    destruct (String.eqb_spec (DbRow.intent p) i) as [->|Hne]; simpl.
    + rewrite lookup_insert_eq.
      destruct (m !! i); simpl; f_equal; lia.
    + rewrite lookup_insert_ne by exact Hne. reflexivity.
Qed.

(** The intent breakdown of [get_stats] holds, for each intent, the
    number of global rows with that intent, and has no entry for an
    intent no row carries. *)
Theorem get_stats_counts_each_intent (w : World) (intent : string) :
  next_fault w = None ->
  intentBreakdown (fst (get_stats w)) !! intent =
    match length (with_intent intent (global_patterns w)) with
    | 0 => None
    | S c => Some (S c)
    end.
Proof.
  intros Hfault. unfold get_stats.
  rewrite (execute_served _ _ Hfault). cbn [serve fst snd data intentBreakdown pop_fault global_patterns].
  rewrite lookup_fold_count_intent, lookup_empty. reflexivity.
Qed.

(** The counts of the breakdown add up to [totalGlobalPatterns], which is
    the number of global rows when the read is answered; when the read
    fails the statistics are zero and empty. *)
Theorem get_stats_total_is_sum (w : World) :
  let stats := fst (get_stats w) in
  sum_counts (intentBreakdown stats) = totalGlobalPatterns stats /\
  (next_fault w = None -> totalGlobalPatterns stats = length (global_patterns w)) /\
  (forall err, next_fault w = Some err -> stats = mkStats 0 ∅).
Proof.
  cbv zeta. unfold get_stats.
  destruct (execute GetGlobal w) as [result w'] eqn:E. cbn [fst intentBreakdown totalGlobalPatterns].
  split; [|split].
  - rewrite sum_counts_fold. unfold sum_counts. rewrite map_fold_empty. reflexivity.
  - intros Hfault. rewrite (execute_served _ _ Hfault) in E.
    inversion E; subst. reflexivity.
  - intros err Hfault. unfold execute, next_fault in *.
    destruct (faults w) as [|[e|] rest]; try discriminate.
    inversion E; subst. reflexivity.
Qed.

End StatsProperties.

(** ** The properties on the sample data *)

(** A question in another spelling: its normal form is a fixed point. *)
Lemma normalize_idempotent_witness :
  is_ascii_text "  What is your GENDER? " = true /\
  normalize "  What is your GENDER? " = "what is your gender?" /\
  is_ascii_text (normalize "  What is your GENDER? ") = true /\
  normalize (normalize "  What is your GENDER? ") = normalize "  What is your GENDER? ".
Proof.
  split; [reflexivity|]. split; [vm_compute; reflexivity|].
  exact (normalize_idempotent "  What is your GENDER? " eq_refl).
Defined.

(** The threshold boundary of the fuzzy test: three shared words of six
    meet the threshold 0.5, two shared words of six do not. *)
Lemma fuzzy_overlap_first_qualifying_witness :
  Forall (fun x => qualifies sample_config six_words x = false) [] /\
  exact_match six_words six_words_three_shared = false /\
  similarity (words six_words)
             (words (normalize (DbRow.question_pattern six_words_three_shared)))
    = 0.5%float /\
  search_global sample_config six_words [six_words_three_shared]
    = Some (to_match six_words_three_shared) /\
  search_global sample_config six_words [six_words_two_shared] = None.
Proof.
  split; [constructor|]. split; [reflexivity|]. split; [vm_compute; reflexivity|].
  split.
  - pose proof (fuzzy_overlap_first_qualifying sample_config six_words [] []
                  six_words_three_shared (List.Forall_nil _) eq_refl) as [H _].
    vm_compute in H. vm_compute. exact H.
  - pose proof (fuzzy_overlap_first_qualifying sample_config six_words [] []
                  six_words_two_shared (List.Forall_nil _) eq_refl) as [H _].
    vm_compute in H. vm_compute. exact H.
Defined.

(** C4, the claim as stated fails: the store holds a row equal to the
    query after normalization, yet the scan returns the earlier row that
    is merely similar to it. *)
Lemma global_similar_row_beats_equal_row :
  let question_lower := normalize "What is your name" in
  In equal_row (global_patterns world_similar_then_equal) /\
  exact_match question_lower equal_row = true /\
  exact_match question_lower similar_row = false /\
  fst (search_pattern sample_config "What is your name" None world_similar_then_equal)
    = Some (to_match similar_row).
Proof.
  cbv zeta. split; [right; left; reflexivity|].
  repeat split; vm_compute; reflexivity.
Qed.

Lemma search_pattern_private_precedence_witness :
  truthy "a@x.com" = true /\
  next_fault world_private_and_global = None /\
  gender_row_a ∈ learned_patterns world_private_and_global /\
  exact_match (normalize "What is your gender?") gender_row_a = true /\
  exists r' w',
    search_pattern sample_config "What is your gender?" (Some "a@x.com")
                   world_private_and_global = (Some (to_match r'), w') /\
    r' ∈ learned_patterns world_private_and_global /\
    owned_by "a@x.com" r' = true /\
    exact_match (normalize "What is your gender?") r' = true /\
    new_events world_private_and_global w' =
      [(GetLearnedByUser "a@x.com",
        mkResponse (List.filter (owned_by "a@x.com")
                                (learned_patterns world_private_and_global)) None)].
Proof.
  assert (Hin : gender_row_a ∈ learned_patterns world_private_and_global).
  { apply list_elem_of_In. right. left. reflexivity. }
  split; [reflexivity|]. split; [reflexivity|]. split; [exact Hin|].
  split; [vm_compute; reflexivity|].
  apply (search_pattern_private_precedence sample_config "What is your gender?"
           "a@x.com" world_private_and_global gender_row_a);
    [reflexivity | reflexivity | exact Hin | reflexivity | vm_compute; reflexivity].
Defined.

(** The private row wins although a global row matches as well. *)
Example private_row_returned_before_global :
  exact_match (normalize "What is your gender?")
              (global_row "g5" "What is your gender?" "eeo.gender" "Prefer not to say")
    = true /\
  fst (search_pattern sample_config "What is your gender?" (Some "a@x.com")
                      world_private_and_global) = Some (to_match gender_row_a).
Proof. split; vm_compute; reflexivity. Qed.

(** A global row that matches the question and maps to an empty answer:
    the handler answers from the service and learns its answer, as it
    does on a store without any pattern. *)
Lemma predict_empty_answer_falls_through_witness :
  exists m w1,
    search_pattern sample_config (AIRequest.question gender_request) None
                   world_answerless_match = (Some m, w1) /\
    extract_answer m = "" /\
    predict_with sample_config confident_model write_counted gender_request
                 world_answerless_match
      = (Returned (AIResponse.mk "Female" 0.70 "Read from the profile"
                                 (Some "eeo.gender")),
         snd (write_counted
                (learned_pattern gender_request
                   (AIResponse.mk "Female" 0.70 "Read from the profile"
                                  (Some "eeo.gender")))
                (Some "a@x.com") w1)) /\
    predict_with sample_config failing_model write_counted gender_request
                 world_answerless_match
      = (Raised "bedrock: connection refused", w1) /\
    fst (search_pattern sample_config (AIRequest.question gender_request) None
                        empty_world) = None /\
    fst (predict_with sample_config confident_model write_counted gender_request
                      empty_world)
      = fst (predict_with sample_config confident_model write_counted gender_request
                          world_answerless_match).
Proof.
  destruct (search_pattern sample_config (AIRequest.question gender_request) None
                           world_answerless_match) as [[m|] w1] eqn:Hsearch;
    [|vm_compute in Hsearch; discriminate].
  assert (Hempty :
    MemoryMatch.answerMappings m = [] \/
    exists first rest,
      MemoryMatch.answerMappings m = first :: rest /\
      default [] (variants first) = [] /\
      default "" (canonicalValue first) = "").
  { right. vm_compute in Hsearch. inversion Hsearch; subst.
    exists (mkAnswerMapping (Some "") (Some []) None), []. repeat split. }
  destruct (search_pattern sample_config (AIRequest.question gender_request) None
                           empty_world) as [[m0|] w0'] eqn:Hnone;
    [vm_compute in Hnone; discriminate|].
  exists m, w1. split; [reflexivity|].
  split; [vm_compute in Hsearch; inversion Hsearch; reflexivity|].
  split.
  { exact (proj1 (predict_empty_answer_falls_through sample_config confident_model
                    write_counted gender_request world_answerless_match w1 m
                    Hsearch Hempty)). }
  split.
  { exact (proj1 (predict_empty_answer_falls_through sample_config failing_model
                    write_counted gender_request world_answerless_match w1 m
                    Hsearch Hempty)). }
  split; [reflexivity|].
  exact (proj2 (proj2 (proj2 (predict_empty_answer_falls_through sample_config
                                confident_model write_counted gender_request
                                world_answerless_match w1 m Hsearch Hempty))
                      empty_world w0' Hnone)).
Defined.

(** The learn gate at its boundary, with a write-back that counts its
    calls on the clock: none at 0.69, none for an empty answer at 0.70,
    one for a non-empty answer at 0.70, where [save_pattern] itself sends
    one write of the pattern. *)
Lemma predict_learn_gate_witness :
  clock (snd (predict_with sample_config unsure_model write_counted
                           gender_request empty_world)) = 0 /\
  clock (snd (predict_with sample_config silent_model write_counted
                           gender_request empty_world)) = 0 /\
  clock (snd (predict_with sample_config confident_model write_counted
                           gender_request empty_world)) = 1 /\
  pattern_writes (snd (predict sample_config sample_clock confident_model
                               gender_request world_profile_only)) = 1.
Proof.
  assert (Hreal :
    pattern_writes (snd (predict sample_config sample_clock confident_model
                                 gender_request world_profile_only)) = 1).
  { destruct (search_pattern sample_config (AIRequest.question gender_request) None
                             world_profile_only) as [memory_match w1] eqn:Hsearch.
    assert (Hmiss : memory_miss memory_match = true).
    { vm_compute in Hsearch. inversion Hsearch. reflexivity. }
    unfold predict.
    rewrite (predict_learn_gate sample_config confident_model
               (save_pattern_call sample_clock) gender_request world_profile_only
               w1 memory_match _ Hsearch Hmiss eq_refl).
    vm_compute in Hsearch. inversion Hsearch; subst. vm_compute. reflexivity. }
  destruct (search_pattern sample_config (AIRequest.question gender_request) None
                           empty_world) as [memory_match w1] eqn:Hsearch.
  assert (Hmiss : memory_miss memory_match = true).
  { vm_compute in Hsearch. inversion Hsearch. reflexivity. }
  assert (Hclock : clock w1 = 0).
  { vm_compute in Hsearch. inversion Hsearch. reflexivity. }
  rewrite (predict_learn_gate sample_config unsure_model write_counted
             gender_request empty_world w1 memory_match _ Hsearch Hmiss eq_refl).
  rewrite (predict_learn_gate sample_config silent_model write_counted
             gender_request empty_world w1 memory_match _ Hsearch Hmiss eq_refl).
  rewrite (predict_learn_gate sample_config confident_model write_counted
             gender_request empty_world w1 memory_match _ Hsearch Hmiss eq_refl).
  cbn. rewrite Hclock. split; [reflexivity|]. split; [reflexivity|].
  split; [reflexivity | exact Hreal].
Defined.

(** One response for a write-back that succeeds, one that is refused,
    one that raises, and for [save_pattern] itself. *)
Lemma predict_response_ignores_write_back_witness :
  let fresh := AIResponse.mk "Female" 0.70 "Read from the profile" (Some "eeo.gender") in
  learn_gate fresh = true /\
  fst (predict_with sample_config confident_model write_ok gender_request empty_world)
    = Returned fresh /\
  fst (predict_with sample_config confident_model write_refused gender_request empty_world)
    = Returned fresh /\
  fst (predict_with sample_config confident_model write_raises gender_request empty_world)
    = Returned fresh /\
  fst (predict sample_config sample_clock confident_model gender_request empty_world)
    = Returned fresh.
Proof.
  cbv zeta.
  destruct (search_pattern sample_config (AIRequest.question gender_request) None
                           empty_world) as [memory_match w1] eqn:Hsearch.
  assert (Hmiss : memory_miss memory_match = true).
  { vm_compute in Hsearch. inversion Hsearch. reflexivity. }
  split; [reflexivity|].
  pose proof (fun save =>
    predict_response_ignores_write_back sample_config confident_model save
      gender_request empty_world w1 memory_match _ Hsearch Hmiss eq_refl eq_refl)
    as Hany.
  split; [apply Hany|]. split; [apply Hany|]. split; [apply Hany|]. apply Hany.
Defined.

(** C3, at a request that carries the owner's email: the owner's private
    store holds the answer and the matcher finds it when given the email,
    but the handler sends the global read alone and answers from the
    model. *)
Theorem predict_skips_private_store :
  fst (search_pattern sample_config (AIRequest.question gender_request)
                      (AIRequest.userEmail gender_request) world_private_only)
    = Some (to_match gender_row_a) /\
  extract_answer (to_match gender_row_a) = "Male" /\
  fst (predict sample_config sample_clock unsure_model gender_request world_private_only)
    = Returned (AIResponse.mk "Female" 0.69 "Guessed from the options" (Some "unknown")) /\
  map fst (trace (snd (predict sample_config sample_clock unsure_model gender_request
                               world_private_only)))
    = [GetGlobal].
Proof. repeat split; vm_compute; reflexivity. Qed.

(** C5, at a global row stored with an empty intent: the memory hit is
    returned with that empty intent, with no substitution of [unknown]. *)
Theorem predict_memory_hit_empty_intent :
  fst (predict sample_config sample_clock unsure_model name_request
               world_intentless_global)
    = Returned (AIResponse.mk "Ada" 0.95 "Retrieved from Pattern Memory" (Some "")).
Proof. vm_compute. reflexivity. Qed.

(** Two learnings of one question by an owner without a profile yet. *)
Lemma save_pattern_twice_one_row_witness :
  let q := normalize (Pattern.questionPattern first_answer) in
  truthy "a@x.com" = true /\
  faults empty_world = [] /\
  normalize (Pattern.questionPattern second_answer) = q /\
  length (stored "a@x.com" q empty_world) <= 1 /\
  exists w1 w2 r1 r2,
    save_pattern sample_clock first_answer (Some "a@x.com") empty_world = (true, w1) /\
    save_pattern sample_clock second_answer (Some "a@x.com") w1 = (true, w2) /\
    stored "a@x.com" q w1 = [r1] /\
    stored "a@x.com" q w2 = [r2] /\
    r2 = DbRow.set_id (DbRow.id r1)
                      (fst (build_db_data sample_clock second_answer "a@x.com" w1)) /\
    DbRow.intent r2 = Pattern.intent second_answer /\
    DbRow.confidence r2 = Pattern.confidence second_answer /\
    DbRow.answer_mappings r2 = Pattern.answerMappings second_answer /\
    DbRow.id r1 =
      match stored "a@x.com" q empty_world with
      | r0 :: _ => DbRow.id r0
      | [] => pattern_id "a@x.com" q (Pattern.intent first_answer)
      end /\
    map DbRow.id (learned_patterns w2) = map DbRow.id (learned_patterns w1).
Proof.
  cbv zeta.
  split; [reflexivity|]. split; [reflexivity|]. split; [vm_compute; reflexivity|].
  split; [vm_compute; lia|].
  apply (save_pattern_twice_one_row sample_clock first_answer second_answer
           "a@x.com" empty_world).
  - reflexivity.
  - reflexivity.
  - apply List.NoDup_nil.
  - vm_compute. reflexivity.
  - vm_compute. lia.
  - intros _ [].
Defined.

(** C1, the claim as stated fails: the deterministic ids of two
    questions of one owner under one intent coincide.  Once the earlier
    question is saved, the store answers every request, its ids are
    distinct and it holds no row for the owner and the other question;
    yet two calls of [save_pattern] for that question, with one intent and
    different confidence and answer values, both report failure (the
    insert under the taken id is refused) and leave no row for the pair:
    the table is as it was. *)
Lemma save_pattern_colliding_id_stores_no_row :
  let user := Some "a@x.com" in
  let earlier := save_pattern sample_clock earlier_question user world_profile_only in
  let w0 := snd earlier in
  let once := save_pattern sample_clock colliding_first user w0 in
  let twice := save_pattern sample_clock colliding_second user (snd once) in
  let w2 := snd twice in
  pattern_id "a@x.com" "custom question 29386511" "personal.firstName"
    = pattern_id "a@x.com" "custom question 15069006" "personal.firstName" /\
  normalize (Pattern.questionPattern colliding_first) = "custom question 29386511" /\
  normalize (Pattern.questionPattern colliding_second) = "custom question 29386511" /\
  Pattern.intent colliding_second = Pattern.intent colliding_first /\
  fst earlier = true /\
  faults w0 = [] /\
  map DbRow.id (learned_patterns w0) = ["pattern_77235c363e99"] /\
  stored "a@x.com" "custom question 29386511" w0 = [] /\
  fst once = false /\
  fst twice = false /\
  stored "a@x.com" "custom question 29386511" w2 = [] /\
  learned_patterns w2 = learned_patterns w0 /\
  map (fun e => error (snd e)) (new_events w0 w2)
    = [None; Some pk_error; None; Some pk_error].
Proof.
  cbv zeta. repeat split; vm_compute; reflexivity.
Qed.

(** The table after the two learnings: one row, under the deterministic
    id, with the second answer. *)
Example learned_twice_stored_once :
  let w1 := snd (save_pattern sample_clock first_answer (Some "a@x.com") empty_world) in
  let w2 := snd (save_pattern sample_clock second_answer (Some "a@x.com") w1) in
  learned_patterns w2 =
    [DbRow.mk "pattern_86667335c88d" "a@x.com" "what is your gender?" "eeo.gender"
              None (Some "radio") 0.9
              [mkAnswerMapping (Some "Female") (Some ["Female"]) (Some [])]
              "2024-05-01T12:00:03" "2024-05-01T12:00:04"].
Proof. vm_compute. reflexivity. Qed.


(** The same run, request by request: lookup, refused insert, stub
    profile, one retried upsert; the call reports failure and the row is
    not stored. *)
Example self_heal_retry_fails :
  let run := save_pattern sample_clock first_answer (Some "a@x.com") world_retry_fails in
  let row := fst (build_db_data sample_clock first_answer "a@x.com" world_retry_fails) in
  fst run = false /\
  map fst (new_events world_retry_fails (snd run)) =
    [GetLearnedIds "a@x.com" "what is your gender?";
     InsertLearned row;
     UpsertProfile (mkProfileRow "a@x.com" (stub_profile "a@x.com") (sample_clock 2))
                   (Some "email");
     UpsertLearned row (Some "id")] /\
  map (fun ev => fk_violation (snd ev)) (new_events world_retry_fails (snd run)) =
    [false; true; false; false] /\
  map (fun ev => failed (snd ev)) (new_events world_retry_fails (snd run)) =
    [false; true; false; true] /\
  learned_patterns (snd run) = [].
Proof. cbv zeta. repeat split; vm_compute; reflexivity. Qed.

Lemma ai_fallback_intent_never_empty_witness :
  fst (ai_fallback unsure_model write_ok gender_request empty_world)
    = Returned (AIResponse.mk "Female" 0.69 "Guessed from the options" (Some "unknown")) /\
  fst (ai_fallback confident_model write_ok gender_request empty_world)
    = Returned (AIResponse.mk "Female" 0.70 "Read from the profile" (Some "eeo.gender")) /\
  Pattern.intent
    (learned_pattern gender_request
       (AIResponse.mk "" 0.70 "Nothing to say" (Some "unknown"))) = "unknown".
Proof.
  pose proof (ai_fallback_intent_never_empty unsure_model write_ok gender_request
                empty_world _ eq_refl) as (_ & _ & _ & Hunsure & _).
  pose proof (ai_fallback_intent_never_empty confident_model write_ok gender_request
                empty_world _ eq_refl) as (_ & _ & _ & Hconfident & _).
  pose proof (ai_fallback_intent_never_empty silent_model write_ok gender_request
                empty_world _ eq_refl) as (_ & _ & _ & _ & Hsilent & _).
  split; [exact Hunsure|]. split; [exact Hconfident | exact Hsilent].
Defined.

(** A pattern saved for an owner is what the matcher returns to that
    owner for the same question in another spelling. *)
Example saved_then_found :
  let w1 := snd (save_pattern sample_clock first_answer (Some "a@x.com") empty_world) in
  option_map extract_answer
             (fst (search_pattern sample_config "what is your gender?" (Some "a@x.com") w1))
    = Some "Male".
Proof. vm_compute. reflexivity. Qed.

(** ** The further properties on the sample data *)

Lemma private_only_table_ok :
  distinct_ids (learned_patterns world_private_only) /\
  one_row_per_key (learned_patterns world_private_only) /\
  normalized_rows (learned_patterns world_private_only).
Proof.
  split; [|split].
  - apply List.NoDup_cons; [intros [] | apply List.NoDup_nil].
  - intros user q. simpl. destruct (keyed user q gender_row_a); simpl; lia.
  - constructor; [vm_compute; reflexivity | constructor].
Qed.

Lemma get_stats_counts_each_intent_witness :
  next_fault world_three_globals = None /\
  intentBreakdown (fst (get_stats world_three_globals)) !! "eeo.gender" = Some 2 /\
  intentBreakdown (fst (get_stats world_three_globals)) !! "personal.firstName" = Some 1 /\
  intentBreakdown (fst (get_stats world_three_globals)) !! "unknown" = None.
Proof.
  split; [reflexivity|].
  rewrite !(get_stats_counts_each_intent world_three_globals _ eq_refl).
  split; [reflexivity|]. split; reflexivity.
Defined.

Lemma save_pattern_keeps_one_row_per_key_witness :
  let w' := snd (save_pattern sample_clock second_answer (Some "a@x.com")
                              world_private_only) in
  next_fault world_private_only = None /\
  distinct_ids (learned_patterns w') /\ one_row_per_key (learned_patterns w').
Proof.
  cbv zeta. split; [reflexivity|].
  destruct private_only_table_ok as (Hids & Hkeys & _).
  exact (save_pattern_keeps_one_row_per_key sample_clock second_answer (Some "a@x.com")
           world_private_only eq_refl Hids Hkeys).
Defined.

(** Without an answered lookup the guarantee is lost: the row under
    another intent is inserted beside the stored one. *)
Example failed_lookup_can_duplicate :
  let other_intent :=
    Pattern.mk None "what is your gender?" "personal.gender" None None 0.9 None [] None in
  let w' := snd (save_pattern sample_clock other_intent (Some "a@x.com")
                              world_lookup_fails) in
  length (stored "a@x.com" "what is your gender?" world_lookup_fails) = 1 /\
  length (stored "a@x.com" "what is your gender?" w') = 2.
Proof. split; vm_compute; reflexivity. Qed.

Lemma save_pattern_keeps_questions_normalized_witness :
  normalized_rows (learned_patterns world_private_only) /\
  normalized_rows
    (learned_patterns (snd (save_pattern sample_clock low_confidence_upload
                                         (Some "b@x.com") world_private_only))).
Proof.
  destruct private_only_table_ok as (_ & _ & Hnorm).
  split; [exact Hnorm|].
  exact (save_pattern_keeps_questions_normalized sample_clock low_confidence_upload
           (Some "b@x.com") world_private_only Hnorm).
Defined.

Lemma uploaded_pattern_is_found_witness :
  exists w' m,
    upload_pattern sample_clock low_confidence_upload (Some "a@x.com") world_private_only
      = (Uploaded "Pattern uploaded successfully", w') /\
    extract_answer m = "Non-binary" /\
    fst (search_pattern sample_config "what is your gender?" (Some "a@x.com") w') = Some m /\
    fst (search_pattern sample_config "WHAT IS YOUR GENDER?  " (Some "a@x.com") w') = Some m.
Proof.
  destruct private_only_table_ok as (Hids & Hkeys & Hnorm).
  destruct (uploaded_pattern_is_found sample_config sample_clock low_confidence_upload
              "a@x.com" world_private_only eq_refl eq_refl Hids Hkeys Hnorm)
    as (w' & m & Hup & Ha & _ & _ & Hfind).
  { vm_compute. discriminate. }
  exists w', m. split; [exact Hup|]. split.
  { unfold extract_answer. rewrite Ha. reflexivity. }
  split; apply Hfind; vm_compute; reflexivity.
Defined.

Lemma uploaded_pattern_is_listed_normalized_witness :
  Pattern.questionPattern low_confidence_upload
    <> normalize (Pattern.questionPattern low_confidence_upload) /\
  exists w' row,
    upload_pattern sample_clock low_confidence_upload (Some "a@x.com") world_private_only
      = (Uploaded "Pattern uploaded successfully", w') /\
    In row (fst (get_user_patterns "a@x.com" w')) /\
    DbRow.question_pattern row = "what is your gender?" /\
    forall x, In x (fst (get_user_patterns "a@x.com" w')) ->
              DbRow.question_pattern x <> "  What is your GENDER? ".
Proof.
  assert (Hspelled : Pattern.questionPattern low_confidence_upload
                     <> normalize (Pattern.questionPattern low_confidence_upload)).
  { vm_compute. discriminate. }
  split; [exact Hspelled|].
  destruct private_only_table_ok as (Hids & Hkeys & Hnorm).
  destruct (uploaded_pattern_is_listed_normalized sample_clock low_confidence_upload
              "a@x.com" world_private_only eq_refl eq_refl Hids Hkeys Hnorm)
    as (w' & row & Hup & Hin & Hq & _ & _ & Hnot).
  { vm_compute. discriminate. }
  exists w', row. split; [exact Hup|]. split; [exact Hin|]. split.
  { rewrite Hq. vm_compute. reflexivity. }
  exact (Hnot Hspelled).
Defined.

Lemma predict_answers_from_memory_witness :
  let m := to_match (global_row "g5" "What is your gender?" "eeo.gender"
                                "Prefer not to say") in
  next_fault world_private_and_global = None /\
  truthy (extract_answer m) = true /\
  exists w',
    predict_with sample_config confident_model write_raises gender_request
                 world_private_and_global
      = (Returned (AIResponse.mk "Prefer not to say" 0.95
                                 "Retrieved from Pattern Memory" (Some "eeo.gender")), w') /\
    same_tables world_private_and_global w' /\
    new_events world_private_and_global w'
      = [(GetGlobal, mkResponse (global_patterns world_private_and_global) None)].
Proof.
  cbv zeta. split; [reflexivity|]. split; [reflexivity|].
  refine (predict_answers_from_memory sample_config confident_model write_raises
            gender_request world_private_and_global
            (to_match (global_row "g5" "What is your gender?" "eeo.gender"
                                  "Prefer not to say"))
            eq_refl _ eq_refl).
  vm_compute. reflexivity.
Defined.

Lemma predict_learns_what_owner_recalls_witness :
  exists w',
    predict sample_config sample_clock confident_model gender_request world_private_only
      = (Returned (AIResponse.mk "Female" 0.70 "Read from the profile"
                                 (Some "eeo.gender")), w') /\
    option_map extract_answer
               (fst (search_pattern sample_config "What is your gender?"
                                    (Some "a@x.com") w'))
      = Some "Female".
Proof.
  destruct private_only_table_ok as (Hids & Hkeys & Hnorm).
  refine (predict_learns_what_owner_recalls sample_config sample_clock confident_model
            gender_request "a@x.com" world_private_only
            (AIResponse.mk "Female" 0.70 "Read from the profile" (Some "eeo.gender"))
            eq_refl eq_refl eq_refl Hids Hkeys Hnorm _ eq_refl eq_refl _).
  - vm_compute. reflexivity.
  - vm_compute. discriminate.
Defined.

Lemma search_patterns_finds_stored_question_witness :
  In equal_row (global_patterns world_similar_then_equal) /\
  exact_match (normalize "What is your name") equal_row = true /\
  search_patterns sample_config "" world_next_fails
    = (Raised "400: Query parameter 'q' is required", world_next_fails) /\
  exists r' w',
    search_patterns sample_config "What is your name" world_similar_then_equal
      = (Returned [to_match r'], w') /\
    In r' (global_patterns world_similar_then_equal) /\
    qualifies sample_config (normalize "What is your name") r' = true.
Proof.
  assert (Hin : In equal_row (global_patterns world_similar_then_equal))
    by (right; left; reflexivity).
  assert (Hexact : exact_match (normalize "What is your name") equal_row = true)
    by (vm_compute; reflexivity).
  split; [exact Hin|]. split; [exact Hexact|]. split.
  - exact (proj1 (search_patterns_finds_stored_question sample_config world_next_fails)).
  - exact (proj2 (search_patterns_finds_stored_question sample_config
                    world_similar_then_equal)
                 "What is your name" equal_row eq_refl eq_refl Hin Hexact).
Defined.

Lemma saved_profile_is_read_back_witness :
  faults empty_world = [] /\
  fst (get_user_profile "a@x.com"
         (snd (save_user_profile sample_clock "a@x.com" sample_profile empty_world)))
    = Some sample_profile /\
  fst (get_user_profile "a@x.com"
         (snd (save_user_profile sample_clock "a@x.com" wrapped_profile empty_world)))
    = Some sample_profile.
Proof.
  split; [reflexivity|]. split.
  - exact (proj2 (saved_profile_is_read_back sample_clock "a@x.com" sample_profile
                    empty_world eq_refl) eq_refl).
  - exact (proj1 (saved_profile_is_read_back sample_clock "a@x.com" wrapped_profile
                    empty_world eq_refl)).
Defined.

Lemma refused_profile_write_is_reported_saved_witness :
  next_fault world_next_fails = Some "upstream timeout" /\
  fst (save_user_profile sample_clock "a@x.com" sample_profile world_next_fails) = true /\
  fst (get_user_data "a@x.com"
         (snd (save_user_profile sample_clock "a@x.com" sample_profile world_next_fails)))
    = Raised "404: Profile not found".
Proof.
  pose proof (refused_profile_write_is_reported_saved sample_clock "a@x.com"
                sample_profile world_next_fails "upstream timeout" eq_refl) as H.
  destruct (save_user_profile sample_clock "a@x.com" sample_profile world_next_fails)
    as [ok w'].
  destruct H as (Hok & _ & H404).
  split; [reflexivity|]. split; [exact Hok|].
  cbn [snd]. rewrite (H404 eq_refl). reflexivity.
Defined.


Lemma predict_without_owner_never_writes_witness :
  truthy_opt (AIRequest.userEmail anonymous_request) = false /\
  learn_gate (AIResponse.mk "Female" 0.70 "Read from the profile" (Some "eeo.gender"))
    = true /\
  let w' := snd (predict sample_config sample_clock confident_model anonymous_request
                         world_private_only) in
  same_tables world_private_only w' /\
  exists rs, new_events world_private_only w' = [(GetGlobal, rs)].
Proof.
  split; [reflexivity|]. split; [reflexivity|].
  exact (predict_without_owner_never_writes sample_config sample_clock confident_model
           anonymous_request world_private_only eq_refl).
Defined.

Lemma predict_surfaces_model_failure_witness :
  let run := predict sample_config sample_clock failing_model gender_request
                     world_private_only in
  fst run = Raised "bedrock: connection refused" /\
  same_tables world_private_only (snd run) /\
  exists rs, new_events world_private_only (snd run) = [(GetGlobal, rs)].
Proof.
  refine (predict_surfaces_model_failure sample_config sample_clock failing_model
            gender_request world_private_only "bedrock: connection refused" _ eq_refl).
  vm_compute. reflexivity.
Defined.
